(** * Sliding-window sample generation of [HURDATPlus]

    A shallow embedding of the class [HURDATPlus] of
    [src/models/simple_models_with_oisst.py] (lines 34-137): the dataset
    constructor, [generate_all_ts_samples] and [generate_storm_ts_samples],
    together with the parts of pandas, datetime, numpy and torch those
    methods call.  Python exceptions are values of an error monad, the
    file system is an explicit environment, and floating-point payloads
    are kept behind an abstract numeric backend. *)

From Stdlib Require Import ZArith Lia Ascii.
From stdpp Require Import base list strings gmap.

Open Scope Z_scope.

(* ===================================================================== *)
(** ** Python exceptions and the error monad *)
(* ===================================================================== *)

(** The exception classes the modelled code can raise.  [KeyError] carries
    the missing label; for a list selection it is the first missing one. *)
Inductive exn :=
| KeyError (label : string)
| IndexError
| ValueError
| TypeError
| OverflowError
| AttributeError
| AxisError
| RuntimeError
| OSError.

Inductive result (A : Type) :=
| Ok (a : A)
| Raise (e : exn).
Arguments Ok {A} a.
Arguments Raise {A} e.

Definition bind {A B} (c : result A) (k : A -> result B) : result B :=
  match c with
  | Ok a => k a
  | Raise e => Raise e
  end.

Notation "'let*' x ':=' c 'in' k" := (bind c (fun x => k))
  (at level 10, x name, c at level 100, k at level 200).

(** [list(map(f, xs))]: evaluated left to right, the first exception wins. *)
Fixpoint traverse {A B} (f : A -> result B) (xs : list A) : result (list B) :=
  match xs with
  | [] => Ok []
  | x :: xs' => let* y := f x in let* ys := traverse f xs' in Ok (y :: ys)
  end.

Definition is_ok {A} (c : result A) : Prop := exists a, c = Ok a.
Definition fails {A} (c : result A) : Prop := exists e, c = Raise e.

(* ===================================================================== *)
(** ** Numeric backend *)
(* ===================================================================== *)

(** Floating-point values are not interpreted: a table holds [f64] scalars
    (compared with [==] when they serve as group keys), tensors hold [f32]
    scalars, and a raster is a shape together with an opaque buffer that
    numpy and torch transform. *)
Class Backend := {
  f64 : Type;
  f64_eq_dec :: EqDecision f64;
  f32 : Type;
  f32_of_int : Z -> f32;          (* int64 -> torch.float *)
  f32_of_f64 : f64 -> f32;        (* float64 -> torch.float *)
  f32_nan : f32;
  buffer : Type;
  buf_moveaxis : list nat -> buffer -> buffer;   (* np.moveaxis(a, -1, 0) *)
  buf_to_float : buffer -> buffer;               (* torch.tensor(a, dtype=torch.float) *)
  buf_resize : list nat -> nat -> nat -> buffer -> buffer  (* Resize((h, w)) *)
}.

Section Model.
Context `{B : Backend}.

(* ===================================================================== *)
(** ** pandas: tables *)
(* ===================================================================== *)

(** One entry of a table.  [CNaN] is the missing value. *)
Inductive cell :=
| CInt (z : Z)
| CFloat (x : f64)
| CStr (s : string)
| CNaN.

#[export] Instance cell_eq_dec : EqDecision cell.
Proof. solve_decision. Defined.

Inductive dtype := int64 | float64 | object.

#[export] Instance dtype_eq_dec : EqDecision dtype.
Proof. solve_decision. Defined.

(** A [DataFrame]: its columns (label and dtype, in order) and its rows in
    storage order.  A row maps column labels to cells; an absent entry reads
    as the missing value. *)
Record DataFrame := {
  df_columns : list (string * dtype);
  df_rows : list (gmap string cell)
}.

Definition columns (df : DataFrame) : list string := (df_columns df).*1.

Definition has_column (c : string) (df : DataFrame) : bool :=
  bool_decide (c ∈ columns df).

Definition cell_at (r : gmap string cell) (c : string) : cell :=
  default CNaN (r !! c).

(** [df.shape[0]] *)
Definition nrows (df : DataFrame) : Z := Z.of_nat (length (df_rows df)).

(** [df[c]] for a single label: the column as a list of cells. *)
Definition getitem (df : DataFrame) (c : string) : result (list cell) :=
  if has_column c df
  then Ok (map (fun r => cell_at r c) (df_rows df))
  else Raise (KeyError c).

Fixpoint column_dtype (cols : list (string * dtype)) (c : string) : result dtype :=
  match cols with
  | [] => Raise (KeyError c)
  | (c', d) :: cols' => if String.eqb c c' then Ok d else column_dtype cols' c
  end.

(** [df[vars]] for a list of labels: the selected columns in the order of
    [vars], over the same rows. *)
Definition getitem_list (df : DataFrame) (vars : list string) : result DataFrame :=
  let* ds := traverse (column_dtype (df_columns df)) vars in
  Ok {| df_columns := zip vars ds; df_rows := df_rows df |}.

(** [df.values]: the cells row by row, in column order. *)
Definition values (df : DataFrame) : list (list cell) :=
  map (fun r => map (cell_at r) (columns df)) (df_rows df).

(** [df.iloc[start:stop]] with [0 <= start]. *)
Definition iloc_slice (start stop : nat) (df : DataFrame) : DataFrame :=
  {| df_columns := df_columns df;
     df_rows := take (stop - start) (drop start (df_rows df)) |}.

(** [df.head(n)], that is [df.iloc[:n]]: the first [n] rows, or for a
    negative [n] all rows but the last [-n]. *)
Definition head (n : Z) (df : DataFrame) : DataFrame :=
  {| df_columns := df_columns df;
     df_rows :=
       if 0 <=? n then take (Z.to_nat n) (df_rows df)
       else take (length (df_rows df) - Z.to_nat (- n)) (df_rows df) |}.

(** [df.iloc[-1]] and [df.iloc[0]]: a row, or [IndexError] on an empty table. *)
Definition iloc_last (df : DataFrame) : result (gmap string cell) :=
  match last (df_rows df) with
  | Some r => Ok r
  | None => Raise IndexError
  end.

Definition iloc_first {A} (s : list A) : result A :=
  match s with
  | x :: _ => Ok x
  | [] => Raise IndexError
  end.

(** [row[c]] on a row taken from [df]. *)
Definition row_getitem (df : DataFrame) (r : gmap string cell) (c : string) : result cell :=
  if has_column c df then Ok (cell_at r c) else Raise (KeyError c).

(** Iterating [df.rolling(window=w)]: one window per row, the [i]-th
    (counting from 1) holding rows [max(0, i - w) .. i).  A negative window
    is rejected when the rolling object is built. *)
Definition rolling (window : Z) (df : DataFrame) : result (list DataFrame) :=
  if window <? 0 then Raise ValueError
  else Ok (map (fun i => iloc_slice (i - Z.to_nat window) i df)
               (seq 1 (length (df_rows df)))).

(** [df.groupby(key, sort=False)]: rows are dealt into buckets, a new key
    opening a bucket after the existing ones and a known key extending its
    bucket at the end.  Rows whose key is missing are dropped. *)
Fixpoint bucket_add (k : cell) (r : gmap string cell)
    (gs : list (cell * list (gmap string cell))) : list (cell * list (gmap string cell)) :=
  match gs with
  | [] => [(k, [r])]
  | (k', rs) :: gs' =>
      if decide (k = k') then (k', rs ++ [r]) :: gs'
      else (k', rs) :: bucket_add k r gs'
  end.

Definition bucket_step (key : string)
    (gs : list (cell * list (gmap string cell))) (r : gmap string cell) :=
  match cell_at r key with
  | CNaN => gs
  | k => bucket_add k r gs
  end.

Definition buckets (key : string) (rows : list (gmap string cell)) :=
  foldl (bucket_step key) [] rows.

Definition groupby (key : string) (df : DataFrame) : result (list (cell * DataFrame)) :=
  if has_column key df
  then Ok (map (fun g => (g.1, {| df_columns := df_columns df; df_rows := g.2 |}))
               (buckets key (df_rows df)))
  else Raise (KeyError key).

(* ===================================================================== *)
(** ** datetime *)
(* ===================================================================== *)

Record datetime := {
  dt_year : Z; dt_month : Z; dt_day : Z;
  dt_hour : Z; dt_minute : Z; dt_second : Z
}.

Definition is_leap (y : Z) : bool :=
  (y mod 4 =? 0) && (negb (y mod 100 =? 0) || (y mod 400 =? 0)).

Definition days_in_month (y m : Z) : Z :=
  if (m =? 2) && is_leap y then 29
  else nth (Z.to_nat m) [0; 31; 28; 31; 30; 31; 30; 31; 31; 30; 31; 30; 31] 0.

(** [datetime.datetime(year, month, day, hour)]: every argument must be an
    integer ([TypeError]); then the ranges are checked ([ValueError]). *)
Definition as_int (c : cell) : result Z :=
  match c with
  | CInt z => Ok z
  | _ => Raise TypeError
  end.

Definition datetime_new (x : cell * cell * cell * cell) : result datetime :=
  let '(cy, cm, cd, ch) := x in
  let* y := as_int cy in
  let* m := as_int cm in
  let* d := as_int cd in
  let* h := as_int ch in
  if (1 <=? y) && (y <=? 9999) && (1 <=? m) && (m <=? 12)
     && (1 <=? d) && (d <=? days_in_month y m) && (0 <=? h) && (h <=? 23)
  then Ok {| dt_year := y; dt_month := m; dt_day := d;
             dt_hour := h; dt_minute := 0; dt_second := 0 |}
  else Raise ValueError.

(** [dt - datetime.timedelta(days=1)]: the day field is decremented and the
    date renormalised; leaving year 1 raises [OverflowError]. *)
Definition sub_one_day (dt : datetime) : result datetime :=
  let d := dt_day dt - 1 in
  let '(y, m, d) :=
    if d =? 0 then
      if 0 <? dt_month dt - 1
      then (dt_year dt, dt_month dt - 1, days_in_month (dt_year dt) (dt_month dt - 1))
      else (dt_year dt - 1, 12, 31)
    else (dt_year dt, dt_month dt, d) in
  if (1 <=? y) && (y <=? 9999)
  then Ok {| dt_year := y; dt_month := m; dt_day := d; dt_hour := dt_hour dt;
             dt_minute := dt_minute dt; dt_second := dt_second dt |}
  else Raise OverflowError.

(** Zero-padded decimal rendering on [w] digits.  The year is rendered on
    four digits, as the format is documented; a C library that leaves years
    below 1000 unpadded is outside the model. *)
Definition digit (z : Z) : ascii := ascii_of_nat (48 + Z.to_nat (z mod 10)).

Fixpoint zdigits (w : nat) (z : Z) : string :=
  match w with
  | O => EmptyString
  | S w' => zdigits w' (z / 10) +:+ String (digit z) EmptyString
  end.

(** [dt.strftime("%Y-%m-%d")] *)
Definition strftime_date (dt : datetime) : string :=
  zdigits 4 (dt_year dt) +:+ "-" +:+ zdigits 2 (dt_month dt) +:+ "-"
    +:+ zdigits 2 (dt_day dt).

(** [dt.strftime("%Y-%m-%d %H:%M:%S")] *)
Definition strftime_full (dt : datetime) : string :=
  strftime_date dt +:+ " " +:+ zdigits 2 (dt_hour dt) +:+ ":"
    +:+ zdigits 2 (dt_minute dt) +:+ ":" +:+ zdigits 2 (dt_second dt).

(** Proleptic Gregorian ordinal of a date ([date.toordinal()]), day 1 being
    0001-01-01.  Not called by the program; it measures calendar distance. *)
Definition days_before_year (y : Z) : Z :=
  let y1 := y - 1 in y1 * 365 + y1 / 4 - y1 / 100 + y1 / 400.

Definition days_before_month (y m : Z) : Z :=
  nth (Z.to_nat m) [0; 0; 31; 59; 90; 120; 151; 181; 212; 243; 273; 304; 334] 0
  + (if (2 <? m) && is_leap y then 1 else 0).

Definition toordinal (dt : datetime) : Z :=
  days_before_year (dt_year dt) + days_before_month (dt_year dt) (dt_month dt)
  + dt_day dt.

(* ===================================================================== *)
(** ** numpy and torch *)
(* ===================================================================== *)

(** A two-dimensional float tensor. *)
Record tensor2 := {
  t_shape : nat * nat;
  t_data : list (list f32)
}.

Definition to_float (c : cell) : f32 :=
  match c with
  | CInt z => f32_of_int z
  | CFloat x => f32_of_f64 x
  | _ => f32_nan
  end.

(** [torch.tensor(df.values, dtype=torch.float)]: an [object] column makes
    [df.values] an object array, which torch rejects. *)
Definition tensor_of_values (df : DataFrame) : result tensor2 :=
  if existsb (fun cd => bool_decide (cd.2 = object)) (df_columns df)
  then Raise TypeError
  else Ok {| t_shape := (length (df_rows df), length (df_columns df));
             t_data := map (map to_float) (values df) |}.

(** An n-dimensional array or tensor: its shape and its contents. *)
Record ndarray := {
  nd_shape : list nat;
  nd_buf : buffer
}.

(** [np.moveaxis(a, -1, 0)] *)
Definition moveaxis_last_first (a : ndarray) : result ndarray :=
  match nd_shape a with
  | [] => Raise AxisError
  | sh => Ok {| nd_shape := List.last sh 0%nat :: removelast sh;
                nd_buf := buf_moveaxis sh (nd_buf a) |}
  end.

(** [torch.tensor(a, dtype=torch.float)] *)
Definition torch_tensor (a : ndarray) : ndarray :=
  {| nd_shape := nd_shape a; nd_buf := buf_to_float (nd_buf a) |}.

(** [Resize((h, w))(t)] on a tensor: the two trailing axes are resampled.
    Only images [(C, H, W)] and batches [(N, C, H, W)] with non-empty
    channel and spatial axes are accepted. *)
Definition resize (h w : nat) (t : ndarray) : result ndarray :=
  match nd_shape t with
  | [] | [_] => Raise TypeError
  | [c; h0; w0] =>
      if (0 <? c)%nat && (0 <? h0)%nat && (0 <? w0)%nat
      then Ok {| nd_shape := [c; h; w]; nd_buf := buf_resize (nd_shape t) h w (nd_buf t) |}
      else Raise RuntimeError
  | [n; c; h0; w0] =>
      if (0 <? c)%nat && (0 <? h0)%nat && (0 <? w0)%nat
      then Ok {| nd_shape := [n; c; h; w]; nd_buf := buf_resize (nd_shape t) h w (nd_buf t) |}
      else Raise RuntimeError
  | _ => Raise RuntimeError
  end.

(** [torch.stack(ts)]: a new leading axis over tensors of one common shape. *)
Record stacked := {
  st_shape : list nat;
  st_frames : list buffer
}.

Definition stack (ts : list ndarray) : result stacked :=
  match ts with
  | [] => Raise RuntimeError
  | t :: ts' =>
      if forallb (fun t' => bool_decide (nd_shape t' = nd_shape t)) ts'
      then Ok {| st_shape := length ts :: nd_shape t; st_frames := map nd_buf ts |}
      else Raise RuntimeError
  end.

(* ===================================================================== *)
(** ** The class [HURDATPlus] *)
(* ===================================================================== *)

(** What the process reads from disk: [pd.read_csv] and [np.load]. *)
Record Env := {
  read_csv : string -> result DataFrame;
  np_load : string -> result ndarray
}.

(** A table argument of the constructor: a [DataFrame], a path, or anything
    else (the default [None] included). *)
Inductive table_arg :=
| ArgFrame (df : DataFrame)
| ArgPath (path : string)
| ArgOther.

Definition load_df_table (env : Env) (table : table_arg) : result (option DataFrame) :=
  match table with
  | ArgFrame df => Ok (Some df)
  | ArgPath path => let* loaded_table := read_csv env path in Ok (Some loaded_table)
  | ArgOther => Ok None
  end.

(** The attributes [__init__] sets before it generates the samples. *)
Record HURDATPlus := {
  hurdat_table : option DataFrame;
  oisst_table : option DataFrame;
  gridsat_b1_table : option DataFrame;
  input_vars : list string;
  target_vars : list string;
  past_horizon : Z;
  future_horizon : Z;
  grouping_var : string;
  time_idx : string
}.

(** One generated sample, the dictionary [data_window]; the key
    ["input_oisst"] exists only when a raster index was supplied. *)
Record Sample := {
  input : tensor2;
  input_dt : list string;
  output : tensor2;
  output_dt : list string;
  atcf_code : cell;
  input_oisst : option stacked
}.

(** [x not in ["TS", "HU"]] negated. *)
Definition status_permitted (c : cell) : bool :=
  bool_decide (c = CStr "TS") || bool_decide (c = CStr "HU").

(** Lines 91-95 (and 101-105): the datetimes of a slice, from its
    year, month, day and hour columns. *)
Definition slice_datetimes (slice : DataFrame) : result (list datetime) :=
  let* ys := getitem slice "year" in
  let* ms := getitem slice "month" in
  let* ds := getitem slice "day" in
  let* hs := getitem slice "hour" in
  traverse datetime_new (zip (zip (zip ys ms) ds) hs).

(** [series.item()]: the only element, or [ValueError]. *)
Definition item {A} (s : list A) : result A :=
  match s with
  | [x] => Ok x
  | _ => Raise ValueError
  end.

(** Line 116: [table[table["datetime"] == dt_str]["processed_file_path"].item()] *)
Definition oisst_path (table : DataFrame) (dt_str : string) : result cell :=
  let* dates := getitem table "datetime" in
  let selected :=
    {| df_columns := df_columns table;
       df_rows := filter (fun r => cell_at r "datetime" = CStr dt_str) (df_rows table) |} in
  let* paths := getitem selected "processed_file_path" in
  item paths.

(** [np.load(fp)] *)
Definition load_raster (env : Env) (fp : cell) : result ndarray :=
  match fp with
  | CStr path => np_load env path
  | _ => Raise TypeError
  end.

(** Lines 114-120: the resized raster of one input timestep. *)
Definition oisst_frame (env : Env) (table : DataFrame) (dt : datetime) : result ndarray :=
  let* dt_lag := sub_one_day dt in
  let dt_str := strftime_date dt_lag in
  let* fp := oisst_path table dt_str in
  let* oisst_data_np := load_raster env fp in
  let* oisst_data_np := moveaxis_last_first oisst_data_np in
  let oisst_data_tensor := torch_tensor oisst_data_np in
  resize 64 128 oisst_data_tensor.

(** Lines 111-125. *)
Definition attach_oisst (env : Env) (self : HURDATPlus) (dts : list datetime)
  : result (option stacked) :=
  match oisst_table self with
  | Some table =>
      let* frames := traverse (oisst_frame env table) dts in
      let* st := stack frames in
      Ok (Some st)
  | None => Ok None
  end.

(** The body of the loop of [generate_storm_ts_samples] for one window:
    [None] when the window is skipped by a [continue]. *)
Definition window_sample (env : Env) (self : HURDATPlus) (w : DataFrame)
  : result (option Sample) :=
  if negb (nrows w =? past_horizon self + future_horizon self) then Ok None else
  let* last_row := iloc_last (head (past_horizon self) w) in
  let* status := row_getitem w last_row "system_status" in
  if negb (status_permitted status) then Ok None else
  let input_slice := head (past_horizon self) w in
  let* input_sel := getitem_list input_slice (input_vars self) in
  let* input_t := tensor_of_values input_sel in
  let* input_dts := slice_datetimes input_slice in
  let output_slice := head (past_horizon self) w in
  let* output_sel := getitem_list output_slice (target_vars self) in
  let* output_t := tensor_of_values output_sel in
  let* output_dts := slice_datetimes input_slice in
  let* codes := getitem w "atcf_code" in
  let* code := iloc_first codes in
  let* rasters := attach_oisst env self input_dts in
  Ok (Some {| input := input_t;
              input_dt := map strftime_full input_dts;
              output := output_t;
              output_dt := map strftime_full output_dts;
              atcf_code := code;
              input_oisst := rasters |}).

Fixpoint storm_loop (env : Env) (self : HURDATPlus) (ws : list DataFrame)
    (data : list Sample) : result (list Sample) :=
  match ws with
  | [] => Ok data
  | w :: ws' =>
      let* o := window_sample env self w in
      storm_loop env self ws' (match o with Some s => data ++ [s] | None => data end)
  end.

Definition generate_storm_ts_samples (env : Env) (self : HURDATPlus)
    (storm_df : DataFrame) : result (list Sample) :=
  let* ws := rolling (past_horizon self + future_horizon self) storm_df in
  storm_loop env self ws [].

Fixpoint all_loop (env : Env) (self : HURDATPlus) (groups : list (cell * DataFrame))
    (all_samples : list Sample) : result (list Sample) :=
  match groups with
  | [] => Ok all_samples
  | (_, hurricane_df) :: groups' =>
      let* storm_samples := generate_storm_ts_samples env self hurricane_df in
      all_loop env self groups' (all_samples ++ storm_samples)
  end.

Definition generate_all_ts_samples (env : Env) (self : HURDATPlus) : result (list Sample) :=
  match hurdat_table self with
  | None => Raise AttributeError
  | Some table =>
      let* groups := groupby (grouping_var self) table in
      all_loop env self groups []
  end.

(** The arguments of [__init__], with its defaults for the optional ones. *)
Record init_args := {
  arg_hurdat_table : table_arg;
  arg_input_vars : list string;
  arg_target_vars : list string;
  arg_grouping_var : string;
  arg_time_idx : string;
  arg_past_horizon : Z;
  arg_future_horizon : Z;
  arg_oisst_table : table_arg;
  arg_gridsat_b1_table : table_arg
}.

(** The constructed dataset: the attributes and [generated_samples]. *)
Record Dataset := {
  ds_self : HURDATPlus;
  generated_samples : list Sample
}.

(** Lines 54-67: the attributes, once the three tables are loaded. *)
Definition attributes (a : init_args) (hurdat oisst gridsat : option DataFrame)
  : HURDATPlus :=
  {| hurdat_table := hurdat; oisst_table := oisst; gridsat_b1_table := gridsat;
     input_vars := arg_input_vars a; target_vars := arg_target_vars a;
     past_horizon := arg_past_horizon a; future_horizon := arg_future_horizon a;
     grouping_var := arg_grouping_var a; time_idx := arg_time_idx a |}.

Definition init (env : Env) (a : init_args) : result Dataset :=
  let* hurdat := load_df_table env (arg_hurdat_table a) in
  let* oisst := load_df_table env (arg_oisst_table a) in
  let* gridsat := load_df_table env (arg_gridsat_b1_table a) in
  let self := attributes a hurdat oisst gridsat in
  let* samples := generate_all_ts_samples env self in
  Ok {| ds_self := self; generated_samples := samples |}.

(** [__len__] and [__getitem__]; a negative index counts from the end. *)
Definition len (d : Dataset) : Z := Z.of_nat (length (generated_samples d)).

Definition getitem_sample (d : Dataset) (idx : Z) : result Sample :=
  let i := if idx <? 0 then idx + len d else idx in
  if (0 <=? i) && (i <? len d)
  then match generated_samples d !! Z.to_nat i with
       | Some sample => Ok sample
       | None => Raise IndexError
       end
  else Raise IndexError.

End Model.

(* ===================================================================== *)
(** ** Predicates used by the statements *)
(* ===================================================================== *)

Section Statements.
Context `{B : Backend}.

(** The samples the loop keeps out of the per-window results. *)
Definition kept (os : list (option Sample)) : list Sample := omap id os.

(** The size test of lines 81-82. *)
Definition full_size (self : HURDATPlus) (w : DataFrame) : bool :=
  nrows w =? past_horizon self + future_horizon self.

(** A window that passes both gates. *)
Definition retained (self : HURDATPlus) (w : DataFrame) : bool :=
  full_size self w &&
  match iloc_last (head (past_horizon self) w) with
  | Ok last_row => status_permitted (cell_at last_row "system_status")
  | Raise _ => false
  end.

(** What a kept window and its sample have to do with each other. *)
Record built_from (env : Env) (self : HURDATPlus) (w : DataFrame) (s : Sample) : Prop := {
  bf_full : nrows w = past_horizon self + future_horizon self;
  bf_status : exists last_row,
      iloc_last (head (past_horizon self) w) = Ok last_row /\
      has_column "system_status" w = true /\
      status_permitted (cell_at last_row "system_status") = true;
  bf_input : exists sel,
      getitem_list (head (past_horizon self) w) (input_vars self) = Ok sel /\
      tensor_of_values sel = Ok (input s);
  bf_output : exists sel,
      getitem_list (head (past_horizon self) w) (target_vars self) = Ok sel /\
      tensor_of_values sel = Ok (output s);
  bf_dt : exists dts,
      slice_datetimes (head (past_horizon self) w) = Ok dts /\
      input_dt s = map strftime_full dts /\
      output_dt s = map strftime_full dts /\
      attach_oisst env self dts = Ok (input_oisst s);
  bf_code : exists codes,
      getitem w "atcf_code" = Ok codes /\ iloc_first codes = Ok (atcf_code s)
}.

(** [w] is one of the windows the generator iterates over: a window of the
    rolling object of one group of the track table. *)
Definition window_of (self : HURDATPlus) (w : DataFrame) : Prop :=
  exists table groups g ws,
    hurdat_table self = Some table /\
    groupby (grouping_var self) table = Ok groups /\ g ∈ groups /\
    rolling (past_horizon self + future_horizon self) g.2 = Ok ws /\ w ∈ ws.

(** The float tensor holding columns [vars] of [rows]. *)
Definition tensor_of_rows (vars : list string) (rows : list (gmap string cell)) : tensor2 :=
  {| t_shape := (length rows, length vars);
     t_data := map (fun r => map (fun v => to_float (cell_at r v)) vars) rows |}.

(** A column that [torch.tensor] accepts. *)
Definition numeric_column (df : DataFrame) (v : string) : Prop :=
  column_dtype (df_columns df) v = Ok int64 \/
  column_dtype (df_columns df) v = Ok float64.

(** A row whose year, month, day and hour form a date of the calendar. *)
Definition valid_timestamp (r : gmap string cell) : Prop :=
  exists y m d h,
    cell_at r "year" = CInt y /\ cell_at r "month" = CInt m /\
    cell_at r "day" = CInt d /\ cell_at r "hour" = CInt h /\
    1 <= y <= 9999 /\ 1 <= m <= 12 /\ 1 <= d <= days_in_month y m /\ 0 <= h <= 23.


(** A date of the proleptic Gregorian calendar with a time of day. *)
Definition valid_datetime (dt : datetime) : Prop :=
  1 <= dt_year dt <= 9999 /\ 1 <= dt_month dt <= 12 /\
  1 <= dt_day dt <= days_in_month (dt_year dt) (dt_month dt) /\
  0 <= dt_hour dt <= 23.

(** [key] is the date string of the calendar day before [dt]: the day whose
    ordinal is one less, rendered as YYYY-MM-DD. *)
Definition day_before_key (dt : datetime) (key : string) : Prop :=
  exists lag,
    sub_one_day dt = Ok lag /\ valid_datetime lag /\
    toordinal lag = toordinal dt - 1 /\
    key = strftime_date lag /\ String.length key = 10%nat.

(** The raster index resolves [key] to the file [fp]: exactly one of its
    rows carries [key] in the column "datetime", and [fp] is the path that
    row names. *)
Definition unique_index_entry (table : DataFrame) (key : string) (fp : cell) : Prop :=
  exists r,
    filter (fun r => cell_at r "datetime" = CStr key) (df_rows table) = [r] /\
    fp = cell_at r "processed_file_path".

(** Lines 117-120 on a loaded array. *)
Definition prepare_raster (raw : ndarray) : result ndarray :=
  let* moved := moveaxis_last_first raw in resize 64 128 (torch_tensor moved).

(** Group [ki] is first met before group [kj]: some row of [ki] comes
    before every row of [kj]. *)
Definition first_met_before (key : string) (rows : list (gmap string cell))
    (ki kj : cell) : Prop :=
  exists pre r post,
    rows = pre ++ r :: post /\ cell_at r key = ki /\
    Forall (fun r' => cell_at r' key <> kj) pre.

(** [bs] groups [rows] by [key] without reordering: distinct non-missing
    keys, each with its rows as the table has them, every keyed row in some
    group, and the groups in the order their keys are first met. *)
Record grouped (key : string) (rows : list (gmap string cell))
    (bs : list (cell * list (gmap string cell))) : Prop := {
  grouped_nodup : NoDup bs.*1;
  grouped_rows : forall k rs, (k, rs) ∈ bs ->
      k <> CNaN /\ rs <> [] /\ rs = filter (fun r => cell_at r key = k) rows;
  grouped_all : forall r, r ∈ rows -> cell_at r key <> CNaN -> cell_at r key ∈ bs.*1;
  grouped_order : forall (i j : nat) ki kj, (i < j)%nat ->
      bs.*1 !! i = Some ki -> bs.*1 !! j = Some kj ->
      first_met_before key rows ki kj
}.

(** Two file systems hold the same rasters for an index when they agree on
    every path the index lists. *)
Definition same_rasters (env1 env2 : Env) (index : option DataFrame) : Prop :=
  forall table r path,
    index = Some table -> r ∈ df_rows table ->
    cell_at r "processed_file_path" = CStr path ->
    np_load env1 path = np_load env2 path.

(** The constructor arguments with another track-table argument. *)
Definition with_hurdat (a : init_args) (t : table_arg) : init_args :=
  {| arg_hurdat_table := t;
     arg_input_vars := arg_input_vars a; arg_target_vars := arg_target_vars a;
     arg_grouping_var := arg_grouping_var a; arg_time_idx := arg_time_idx a;
     arg_past_horizon := arg_past_horizon a;
     arg_future_horizon := arg_future_horizon a;
     arg_oisst_table := arg_oisst_table a;
     arg_gridsat_b1_table := arg_gridsat_b1_table a |}.

(** Two objects that agree on every attribute but [time_idx] and
    [gridsat_b1_table]. *)
Definition same_generation_fields (s1 s2 : HURDATPlus) : Prop :=
  hurdat_table s1 = hurdat_table s2 /\ oisst_table s1 = oisst_table s2 /\
  input_vars s1 = input_vars s2 /\ target_vars s1 = target_vars s2 /\
  past_horizon s1 = past_horizon s2 /\ future_horizon s1 = future_horizon s2 /\
  grouping_var s1 = grouping_var s2.

(** The rows of a table that carry a grouping key. *)
Definition keyed_rows (key : string) (rows : list (gmap string cell))
  : list (gmap string cell) :=
  filter (fun r => cell_at r key <> CNaN) rows.

(** The number of rows dealt into the buckets. *)
Definition rows_total (bs : list (cell * list (gmap string cell))) : nat :=
  sum_list (map (fun g => length g.2) bs).

(** Everything the loop body reads from a window that passed the gates:
    the columns exist, the selected variables are numeric and the leading
    rows carry valid timestamps. *)
Record sample_ready (self : HURDATPlus) (w : DataFrame) : Prop := {
  ready_code : has_column "atcf_code" w = true;
  ready_year : has_column "year" w = true;
  ready_month : has_column "month" w = true;
  ready_day : has_column "day" w = true;
  ready_hour : has_column "hour" w = true;
  ready_inputs : Forall (numeric_column w) (input_vars self);
  ready_targets : Forall (numeric_column w) (target_vars self);
  ready_dates : Forall valid_timestamp (df_rows (head (past_horizon self) w))
}.

End Statements.

(* ===================================================================== *)
(** ** Concrete inputs *)
(* ===================================================================== *)

(** A backend whose scalars are integers and whose buffers are tags. *)
Definition ex_backend : Backend :=
  {| f64 := Z; f32 := Z; f32_of_int := fun z => z; f32_of_f64 := fun x => x;
     f32_nan := 0; buffer := list string;
     buf_moveaxis := fun _ b => "moveaxis"%string :: b;
     buf_to_float := fun b => "float"%string :: b;
     buf_resize := fun _ _ _ b => "resize"%string :: b |}.

Section Examples.
#[local] Existing Instance ex_backend.

Definition ex_row (code : string) (y m d h : Z) (status : string) (lon lat : Z)
  : gmap string cell :=
  list_to_map
    [("atcf_code"%string, CStr code); ("year"%string, CInt y); ("month"%string, CInt m);
     ("day"%string, CInt d); ("hour"%string, CInt h);
     ("system_status"%string, CStr status);
     ("longitude"%string, CFloat lon); ("latitude"%string, CFloat lat)].

Definition ex_columns : list (string * dtype) :=
  [("atcf_code"%string, object); ("year"%string, int64); ("month"%string, int64);
   ("day"%string, int64); ("hour"%string, int64); ("system_status"%string, object);
   ("longitude"%string, float64); ("latitude"%string, float64)].

(** Two storms, interleaved: AL01 (three rows) and AL02 (one row). *)
Definition ex_table : DataFrame :=
  {| df_columns := ex_columns;
     df_rows := [ex_row "AL01" 2020 9 10 0 "HU" 1 2;
                 ex_row "AL01" 2020 9 10 6 "TS" 3 4;
                 ex_row "AL02" 2020 3 1 0 "TD" 5 6;
                 ex_row "AL01" 2020 9 10 12 "TD" 7 8] |}.

Definition ex_index_row (date path : string) : gmap string cell :=
  list_to_map [("datetime"%string, CStr date); ("processed_file_path"%string, CStr path)].

Definition ex_index_columns : list (string * dtype) :=
  [("datetime"%string, object); ("processed_file_path"%string, object)].

Definition ex_index : DataFrame :=
  {| df_columns := ex_index_columns;
     df_rows := [ex_index_row "2020-09-09" "sst_0909.npy"] |}.

(** Every raster file holds an array of shape (3, 4, 2). *)
Definition ex_env : Env :=
  {| read_csv := fun _ => Raise OSError;
     np_load := fun path => Ok {| nd_shape := [3; 4; 2]%nat; nd_buf := [path] |} |}.

Definition ex_self : HURDATPlus :=
  {| hurdat_table := Some ex_table; oisst_table := Some ex_index;
     gridsat_b1_table := None;
     input_vars := ["longitude"; "latitude"; "hour"]%string;
     target_vars := ["longitude"; "latitude"]%string;
     past_horizon := 1; future_horizon := 1;
     grouping_var := "atcf_code"%string; time_idx := "time_idx"%string |}.

Definition ex_window : DataFrame :=
  {| df_columns := ex_columns;
     df_rows := [ex_row "AL01" 2020 9 10 0 "HU" 1 2;
                 ex_row "AL01" 2020 9 10 6 "TS" 3 4] |}.

Definition ex_sample : Sample :=
  {| input := {| t_shape := (1, 3)%nat; t_data := [[1; 2; 0]] |};
     input_dt := ["2020-09-10 00:00:00"%string];
     output := {| t_shape := (1, 2)%nat; t_data := [[1; 2]] |};
     output_dt := ["2020-09-10 00:00:00"%string];
     atcf_code := CStr "AL01";
     input_oisst :=
       Some {| st_shape := [1; 2; 64; 128]%nat;
               st_frames := [["resize"; "float"; "moveaxis"; "sst_0909.npy"]%string] |} |}.

Definition ex_sample2 : Sample :=
  {| input := {| t_shape := (1, 3)%nat; t_data := [[3; 4; 6]] |};
     input_dt := ["2020-09-10 06:00:00"%string];
     output := {| t_shape := (1, 2)%nat; t_data := [[3; 4]] |};
     output_dt := ["2020-09-10 06:00:00"%string];
     atcf_code := CStr "AL01";
     input_oisst :=
       Some {| st_shape := [1; 2; 64; 128]%nat;
               st_frames := [["resize"; "float"; "moveaxis"; "sst_0909.npy"]%string] |} |}.

(** The group of storm AL01 and a window whose leading row is a
    tropical depression. *)
Definition ex_storm : DataFrame :=
  {| df_columns := ex_columns;
     df_rows := [ex_row "AL01" 2020 9 10 0 "HU" 1 2;
                 ex_row "AL01" 2020 9 10 6 "TS" 3 4;
                 ex_row "AL01" 2020 9 10 12 "TD" 7 8] |}.

Definition ex_storm_windows : list DataFrame :=
  [iloc_slice 0 1 ex_storm; iloc_slice 0 2 ex_storm; iloc_slice 1 3 ex_storm].

Definition ex_window_td : DataFrame :=
  {| df_columns := ex_columns;
     df_rows := [ex_row "AL01" 2020 9 10 12 "TD" 7 8;
                 ex_row "AL01" 2020 9 10 18 "HU" 9 10] |}.




(** A raster index that only lists the day of the timestep itself. *)
Definition ex_index_late : DataFrame :=
  {| df_columns := ex_index_columns;
     df_rows := [ex_index_row "2020-09-10" "sst_0910.npy"] |}.

Definition ex_self_late : HURDATPlus :=
  {| hurdat_table := Some ex_table; oisst_table := Some ex_index_late;
     gridsat_b1_table := None;
     input_vars := ["longitude"; "latitude"; "hour"]%string;
     target_vars := ["longitude"; "latitude"]%string;
     past_horizon := 1; future_horizon := 1;
     grouping_var := "atcf_code"%string; time_idx := "time_idx"%string |}.

Definition ex_dt : datetime :=
  {| dt_year := 2020; dt_month := 9; dt_day := 10; dt_hour := 0;
     dt_minute := 0; dt_second := 0 |}.

(** The groups of [ex_table], in the order pandas yields them. *)
Definition ex_groups : list (cell * DataFrame) :=
  [(CStr "AL01", ex_storm); (CStr "AL02", iloc_slice 2 3 ex_table)].

(** Constructor arguments with a non-positive [future_horizon], and with
    an input variable that the table does not have. *)
Definition ex_args_zero : init_args :=
  {| arg_hurdat_table := ArgFrame ex_table;
     arg_input_vars := ["longitude"; "latitude"]%string;
     arg_target_vars := ["longitude"; "latitude"]%string;
     arg_grouping_var := "atcf_code"%string; arg_time_idx := "time_idx"%string;
     arg_past_horizon := 1; arg_future_horizon := 0;
     arg_oisst_table := ArgOther; arg_gridsat_b1_table := ArgOther |}.

Definition ex_args_missing : init_args :=
  {| arg_hurdat_table := ArgFrame ex_table;
     arg_input_vars := ["max_sus_wind"]%string;
     arg_target_vars := ["longitude"; "latitude"]%string;
     arg_grouping_var := "atcf_code"%string; arg_time_idx := "time_idx"%string;
     arg_past_horizon := 2; arg_future_horizon := 2;
     arg_oisst_table := ArgOther; arg_gridsat_b1_table := ArgOther |}.

(** The same, but with horizons under which a window is retained, with a
    grouping column the table does not have, and with a negative window. *)
Definition ex_args_missing_used : init_args :=
  {| arg_hurdat_table := ArgFrame ex_table;
     arg_input_vars := ["max_sus_wind"]%string;
     arg_target_vars := ["longitude"; "latitude"]%string;
     arg_grouping_var := "atcf_code"%string; arg_time_idx := "time_idx"%string;
     arg_past_horizon := 1; arg_future_horizon := 1;
     arg_oisst_table := ArgOther; arg_gridsat_b1_table := ArgOther |}.

Definition ex_args_past_zero : init_args :=
  {| arg_hurdat_table := ArgFrame ex_table;
     arg_input_vars := ["longitude"; "latitude"]%string;
     arg_target_vars := ["longitude"; "latitude"]%string;
     arg_grouping_var := "atcf_code"%string; arg_time_idx := "time_idx"%string;
     arg_past_horizon := 0; arg_future_horizon := 1;
     arg_oisst_table := ArgOther; arg_gridsat_b1_table := ArgOther |}.

Definition ex_args_nogroup : init_args :=
  {| arg_hurdat_table := ArgFrame ex_table;
     arg_input_vars := ["longitude"; "latitude"]%string;
     arg_target_vars := ["longitude"; "latitude"]%string;
     arg_grouping_var := "storm_name"%string; arg_time_idx := "time_idx"%string;
     arg_past_horizon := 1; arg_future_horizon := 1;
     arg_oisst_table := ArgOther; arg_gridsat_b1_table := ArgOther |}.

Definition ex_args_negative : init_args :=
  {| arg_hurdat_table := ArgFrame ex_table;
     arg_input_vars := ["longitude"; "latitude"]%string;
     arg_target_vars := ["longitude"; "latitude"]%string;
     arg_grouping_var := "atcf_code"%string; arg_time_idx := "time_idx"%string;
     arg_past_horizon := 1; arg_future_horizon := -2;
     arg_oisst_table := ArgOther; arg_gridsat_b1_table := ArgOther |}.

(** A second file system: the CSV reader differs and files outside the
    index differ, the indexed raster is the same. *)
Definition ex_env2 : Env :=
  {| read_csv := fun _ => Raise AttributeError;
     np_load := fun path =>
       if String.eqb path "sst_0909.npy"
       then Ok {| nd_shape := [3; 4; 2]%nat; nd_buf := [path] |}
       else Raise OSError |}.

Definition ex_args : init_args :=
  {| arg_hurdat_table := ArgFrame ex_table;
     arg_input_vars := ["longitude"; "latitude"; "hour"]%string;
     arg_target_vars := ["longitude"; "latitude"]%string;
     arg_grouping_var := "atcf_code"%string; arg_time_idx := "time_idx"%string;
     arg_past_horizon := 1; arg_future_horizon := 1;
     arg_oisst_table := ArgFrame ex_index; arg_gridsat_b1_table := ArgOther |}.

(** The track table given by path, and a file system that holds it. *)
Definition ex_env_csv : Env :=
  {| read_csv := fun path =>
       if String.eqb path "hurdat2_processed.csv" then Ok ex_table
       else Raise OSError;
     np_load := fun path => Ok {| nd_shape := [3; 4; 2]%nat; nd_buf := [path] |} |}.

Definition ex_args_path : init_args :=
  with_hurdat ex_args (ArgPath "hurdat2_processed.csv").

Definition ex_args_badpath : init_args :=
  with_hurdat ex_args (ArgPath "missing.csv").

Definition ex_args_none : init_args := with_hurdat ex_args ArgOther.

(** [ex_self] with another [time_idx] and a satellite table. *)
Definition ex_self_other : HURDATPlus :=
  {| hurdat_table := Some ex_table; oisst_table := Some ex_index;
     gridsat_b1_table := Some ex_index_late;
     input_vars := ["longitude"; "latitude"; "hour"]%string;
     target_vars := ["longitude"; "latitude"]%string;
     past_horizon := 1; future_horizon := 1;
     grouping_var := "atcf_code"%string; time_idx := "jday"%string |}.

Definition ex_dataset : Dataset :=
  {| ds_self := ex_self; generated_samples := [ex_sample; ex_sample2] |}.

(** [ex_self] without a raster index. *)
Definition ex_self_plain : HURDATPlus :=
  {| hurdat_table := Some ex_table; oisst_table := None;
     gridsat_b1_table := None;
     input_vars := ["longitude"; "latitude"; "hour"]%string;
     target_vars := ["longitude"; "latitude"]%string;
     past_horizon := 1; future_horizon := 1;
     grouping_var := "atcf_code"%string; time_idx := "time_idx"%string |}.

Definition ex_sample_plain : Sample :=
  {| input := {| t_shape := (1, 3)%nat; t_data := [[1; 2; 0]] |};
     input_dt := ["2020-09-10 00:00:00"%string];
     output := {| t_shape := (1, 2)%nat; t_data := [[1; 2]] |};
     output_dt := ["2020-09-10 00:00:00"%string];
     atcf_code := CStr "AL01";
     input_oisst := None |}.

Definition ex_sample_plain2 : Sample :=
  {| input := {| t_shape := (1, 3)%nat; t_data := [[3; 4; 6]] |};
     input_dt := ["2020-09-10 06:00:00"%string];
     output := {| t_shape := (1, 2)%nat; t_data := [[3; 4]] |};
     output_dt := ["2020-09-10 06:00:00"%string];
     atcf_code := CStr "AL01";
     input_oisst := None |}.

Definition ex_dt_first : datetime :=
  {| dt_year := 1; dt_month := 1; dt_day := 1; dt_hour := 6;
     dt_minute := 0; dt_second := 0 |}.

Definition ex_dt_march : datetime :=
  {| dt_year := 2020; dt_month := 3; dt_day := 1; dt_hour := 6;
     dt_minute := 0; dt_second := 0 |}.

End Examples.

(* ===================================================================== *)
(** ** The error monad and the two loops *)
(* ===================================================================== *)

Section MonadFacts.

Lemma bind_ok {A C} (c : result A) (k : A -> result C) (b : C) :
  bind c k = Ok b <-> exists a, c = Ok a /\ k a = Ok b.
Proof.
  split.
  - destruct c as [a|e]; simpl; intros H; [eauto | discriminate].
  - intros (a & -> & H). exact H.
Qed.

Lemma bind_raise {A C} (c : result A) (k : A -> result C) (e : exn) :
  c = Raise e -> bind c k = Raise e.
Proof. intros ->. reflexivity. Qed.

Lemma result_ok_or_raise {A} (c : result A) : is_ok c \/ fails c.
Proof. destruct c; [left | right]; eexists; reflexivity. Qed.

Lemma fails_not_ok {A} (c : result A) : fails c <-> ~ is_ok c.
Proof.
  split.
  - intros [e ->] [a H]. discriminate.
  - intros H. destruct c as [a|e]; [exfalso; apply H; eexists | eexists]; reflexivity.
Qed.

Lemma traverse_ok {A C} (f : A -> result C) xs ys :
  traverse f xs = Ok ys <-> Forall2 (fun x y => f x = Ok y) xs ys.
Proof.
  revert ys. induction xs as [|x xs IH]; intros ys; simpl.
  - split; [intros [= <-]; constructor | inversion 1; reflexivity].
  - rewrite bind_ok. split.
    + intros (y & Hy & H). apply bind_ok in H as (ys' & Hys & [= <-]).
      constructor; [exact Hy | by apply IH].
    + inversion 1 as [|? y ? ys' Hy Hys]; subst.
      exists y. split; [exact Hy|]. apply bind_ok. exists ys'.
      split; [by apply IH | reflexivity].
Qed.

Lemma traverse_length {A C} (f : A -> result C) xs ys :
  traverse f xs = Ok ys -> length ys = length xs.
Proof. rewrite traverse_ok. intros H. symmetry. exact (Forall2_length _ _ _ H). Qed.

Lemma traverse_raise_elem {A C} (f : A -> result C) xs x :
  x ∈ xs -> fails (f x) -> fails (traverse f xs).
Proof.
  intros Hin Hx. apply fails_not_ok. intros [ys Hys].
  apply traverse_ok in Hys.
  destruct (proj1 (list_elem_of_lookup _ _) Hin) as [i Hi].
  destruct (Forall2_lookup_l _ _ _ _ _ Hys Hi) as (y & _ & Hy).
  destruct Hx as [e He]. congruence.
Qed.

Lemma traverse_ext_in {A C} (f g : A -> result C) xs :
  (forall x, x ∈ xs -> f x = g x) -> traverse f xs = traverse g xs.
Proof.
  induction xs as [|x xs IH]; intros H; simpl; [reflexivity|].
  rewrite (H x) by constructor.
  rewrite IH; [reflexivity|]. intros y Hy. apply H. by constructor.
Qed.

Lemma traverse_map {A A' C} (f : A' -> result C) (g : A -> A') xs :
  traverse f (map g xs) = traverse (fun x => f (g x)) xs.
Proof.
  induction xs as [|x xs IH]; simpl; [reflexivity|]. by rewrite IH.
Qed.

Lemma traverse_total {A C} (f : A -> result C) xs :
  Forall (fun x => is_ok (f x)) xs -> is_ok (traverse f xs).
Proof.
  induction 1 as [|x xs [y Hy] _ [ys Hys]]; simpl.
  - eexists; reflexivity.
  - rewrite Hy, Hys. eexists; reflexivity.
Qed.

End MonadFacts.

Section LoopFacts.
Context `{B : Backend}.

Lemma storm_loop_eq env self ws data :
  storm_loop env self ws data =
  let* os := traverse (window_sample env self) ws in Ok (data ++ kept os).
Proof.
  revert data. induction ws as [|w ws IH]; intros data; simpl.
  - by rewrite app_nil_r.
  - destruct (window_sample env self w) as [o|e]; simpl; [|reflexivity].
    rewrite IH. destruct (traverse (window_sample env self) ws) as [os|e]; simpl;
      [|reflexivity].
    unfold kept. destruct o as [s|]; simpl; [|reflexivity].
    by rewrite <- app_assoc.
Qed.

Lemma all_loop_eq env self groups acc :
  all_loop env self groups acc =
  let* ss := traverse (fun g => generate_storm_ts_samples env self g.2) groups in
  Ok (acc ++ concat ss).
Proof.
  revert acc. induction groups as [|[k g] groups IH]; intros acc; simpl.
  - by rewrite app_nil_r.
  - destruct (generate_storm_ts_samples env self g) as [s|e]; simpl; [|reflexivity].
    rewrite IH.
    destruct (traverse _ groups) as [ss|e]; simpl; [|reflexivity].
    by rewrite <- app_assoc.
Qed.

Lemma generate_storm_ok env self storm_df data :
  generate_storm_ts_samples env self storm_df = Ok data <->
  exists ws os,
    rolling (past_horizon self + future_horizon self) storm_df = Ok ws /\
    traverse (window_sample env self) ws = Ok os /\ data = kept os.
Proof.
  unfold generate_storm_ts_samples. rewrite bind_ok. split.
  - intros (ws & Hws & H). rewrite storm_loop_eq in H.
    apply bind_ok in H as (os & Hos & [= <-]). by exists ws, os.
  - intros (ws & os & Hws & Hos & ->). exists ws. split; [exact Hws|].
    rewrite storm_loop_eq, Hos. reflexivity.
Qed.

Lemma generate_all_ok env self samples :
  generate_all_ts_samples env self = Ok samples <->
  exists table groups ss,
    hurdat_table self = Some table /\
    groupby (grouping_var self) table = Ok groups /\
    Forall2 (fun g s => generate_storm_ts_samples env self g.2 = Ok s) groups ss /\
    samples = concat ss.
Proof.
  unfold generate_all_ts_samples. split.
  - destruct (hurdat_table self) as [table|]; [|discriminate].
    intros H. apply bind_ok in H as (groups & Hg & H).
    rewrite all_loop_eq in H. apply bind_ok in H as (ss & Hss & [= <-]).
    exists table, groups, ss. by rewrite <- traverse_ok.
  - intros (table & groups & ss & -> & Hg & Hss & ->).
    rewrite Hg. simpl. rewrite all_loop_eq.
    apply traverse_ok in Hss. by rewrite Hss.
Qed.

Lemma elem_of_concat {A} (x : A) (ls : list (list A)) :
  x ∈ concat ls <-> exists l, x ∈ l /\ l ∈ ls.
Proof.
  induction ls as [|l ls IH]; simpl.
  - split; [by intros ?%elem_of_nil | by intros (l & _ & ?%elem_of_nil)].
  - rewrite elem_of_app, IH. split.
    + intros [H | (l' & H1 & H2)]; [exists l | exists l']; split; try done;
        [by left | by right].
    + intros (l' & H1 & H2). apply elem_of_cons in H2 as [-> | H2];
        [by left | right; eauto].
Qed.

Lemma kept_elem (os : list (option Sample)) s : s ∈ kept os <-> Some s ∈ os.
Proof.
  unfold kept. rewrite list_elem_of_omap. split.
  - intros (o & Ho & Hs). simpl in Hs. by subst.
  - intros H. by exists (Some s).
Qed.

(** Every generated sample is the result of the loop body on one window of
    one storm group. *)
Lemma generated_sample_origin env self samples s :
  generate_all_ts_samples env self = Ok samples -> s ∈ samples ->
  exists table groups g ws w,
    hurdat_table self = Some table /\
    groupby (grouping_var self) table = Ok groups /\ g ∈ groups /\
    rolling (past_horizon self + future_horizon self) g.2 = Ok ws /\ w ∈ ws /\
    window_sample env self w = Ok (Some s).
Proof.
  intros Hall Hs. apply generate_all_ok in Hall as (table & groups & ss & Ht & Hg & Hss & ->).
  apply elem_of_concat in Hs as (data & Hs & Hdata).
  destruct (proj1 (list_elem_of_lookup _ _) Hdata) as [i Hi].
  destruct (Forall2_lookup_r _ _ _ _ _ Hss Hi) as (g & Hgi & Hgen).
  apply generate_storm_ok in Hgen as (ws & os & Hws & Hos & ->).
  apply kept_elem in Hs.
  destruct (proj1 (list_elem_of_lookup _ _) Hs) as [j Hj].
  apply traverse_ok in Hos.
  destruct (Forall2_lookup_r _ _ _ _ _ Hos Hj) as (w & Hwj & Hw).
  exists table, groups, g, ws, w. repeat split; try assumption.
  - eapply list_elem_of_lookup_2; eauto.
  - eapply list_elem_of_lookup_2; eauto.
Qed.

Lemma window_sample_some env self w s :
  window_sample env self w = Ok (Some s) -> built_from env self w s.
Proof.
  unfold window_sample. intros H.
  destruct (nrows w =? past_horizon self + future_horizon self) eqn:Hfull;
    simpl in H; [|discriminate].
  apply Z.eqb_eq in Hfull.
  apply bind_ok in H as (last_row & Hlast & H).
  apply bind_ok in H as (status & Hst & H).
  destruct (status_permitted status) eqn:Hperm; simpl in H; [|discriminate].
  apply bind_ok in H as (isel & Hisel & H).
  apply bind_ok in H as (it & Hit & H).
  apply bind_ok in H as (idts & Hidts & H).
  apply bind_ok in H as (osel & Hosel & H).
  apply bind_ok in H as (ot & Hot & H).
  apply bind_ok in H as (odts & Hodts & H).
  apply bind_ok in H as (codes & Hcodes & H).
  apply bind_ok in H as (code & Hcode & H).
  apply bind_ok in H as (rasters & Hr & [= <-]).
  assert (odts = idts) as -> by congruence.
  unfold row_getitem in Hst.
  destruct (has_column "system_status" w) eqn:Hcol; [|discriminate].
  injection Hst as <-.
  constructor; simpl; eauto 10.
Qed.

End LoopFacts.

(* ===================================================================== *)
(** ** Slices, selections and tensors *)
(* ===================================================================== *)

Section SliceFacts.
Context `{B : Backend}.

Lemma head_rows_nonneg (n : Z) (df : DataFrame) :
  0 <= n -> df_rows (head n df) = take (Z.to_nat n) (df_rows df).
Proof. intros H. unfold head; simpl. destruct (0 <=? n) eqn:E; [reflexivity | lia]. Qed.

Lemma head_columns (n : Z) (df : DataFrame) : df_columns (head n df) = df_columns df.
Proof. reflexivity. Qed.

Lemma traverse_column_dtype_fst cols vars ds :
  traverse (column_dtype cols) vars = Ok ds -> (zip vars ds).*1 = vars.
Proof.
  intros H. apply fst_zip. apply traverse_length in H. lia.
Qed.

(** A selection followed by the tensor conversion reads the selected
    columns of the rows of the slice, in the order of [vars]. *)
Lemma selection_tensor (slice : DataFrame) vars sel t :
  getitem_list slice vars = Ok sel -> tensor_of_values sel = Ok t ->
  t = tensor_of_rows vars (df_rows slice).
Proof.
  unfold getitem_list, tensor_of_values. intros Hsel Ht.
  apply bind_ok in Hsel as (ds & Hds & [= <-]). simpl in Ht.
  destruct (existsb _ _); [discriminate|]. injection Ht as <-.
  unfold tensor_of_rows, values, columns; simpl.
  rewrite (traverse_column_dtype_fst _ _ _ Hds).
  f_equal.
  - f_equal. rewrite length_zip_with. apply traverse_length in Hds. lia.
  - rewrite map_map. apply map_ext. intros r. by rewrite map_map.
Qed.

Lemma iloc_last_nonempty (df : DataFrame) r :
  iloc_last df = Ok r -> df_rows df <> [].
Proof.
  unfold iloc_last. intros H Hnil. rewrite Hnil in H. discriminate.
Qed.

End SliceFacts.

Section WindowFacts.
Context `{B : Backend}.

Ltac same_step :=
  match goal with
  | |- bind ?c _ = bind ?c _ => destruct c; simpl; [|reflexivity]
  | |- (if ?b then _ else _) = (if ?b then _ else _) => destruct b; simpl; [reflexivity|]
  end.

(** The loop body reads a window through its size, its columns and its
    first [past_horizon] rows only. *)
Lemma window_sample_leading env self (w w' : DataFrame) :
  0 <= past_horizon self ->
  df_columns w' = df_columns w ->
  length (df_rows w') = length (df_rows w) ->
  take (Z.to_nat (past_horizon self)) (df_rows w') =
    take (Z.to_nat (past_horizon self)) (df_rows w) ->
  window_sample env self w' = window_sample env self w.
Proof.
  intros Hp Hcols Hlen Hlead.
  assert (Hhead : head (past_horizon self) w' = head (past_horizon self) w).
  { unfold head. rewrite Hcols. f_equal.
    destruct (0 <=? past_horizon self) eqn:E; [exact Hlead | lia]. }
  unfold window_sample, nrows. rewrite Hlen, Hhead.
  same_step.
  destruct (iloc_last (head (past_horizon self) w)) as [last_row|e] eqn:Hlast;
    simpl; [|reflexivity].
  assert (row_getitem w' last_row "system_status" = row_getitem w last_row "system_status")
    as -> by (unfold row_getitem, has_column, columns; by rewrite Hcols).
  same_step. same_step.
  repeat same_step.
  apply iloc_last_nonempty in Hlast. rewrite head_rows_nonneg in Hlast by exact Hp.
  unfold getitem, has_column, columns. rewrite Hcols.
  destruct (bool_decide _); simpl; [|reflexivity].
  destruct (df_rows w) as [|r rows], (df_rows w') as [|r' rows'];
    try (destruct (Z.to_nat (past_horizon self)); simpl in *; congruence).
  destruct (Z.to_nat (past_horizon self)); simpl in *; [congruence|].
  injection Hlead as -> _. reflexivity.
Qed.

End WindowFacts.

(* ===================================================================== *)
(** ** C1: input and target are both the leading rows *)
(* ===================================================================== *)

Section Claim1.
Context `{B : Backend}.

(** C1. For every generated sample there is a window of the generator that
    built it, and with [lead] the first [past_horizon] rows of that window:
    [lead] has exactly [past_horizon] rows; [input] is the tensor of the
    [input_vars] columns of [lead] and [output] is the tensor of the
    [target_vars] columns of the same [lead], so their shapes are
    (past_horizon, |input_vars|) and (past_horizon, |target_vars|); and the
    trailing rows contribute nothing: any window with the same columns, the
    same size and the same leading rows yields the same sample.  The
    horizons are taken non-negative, as the constructor contract has them. *)
Theorem C1_input_and_output_are_leading_rows env self samples s :
  0 <= past_horizon self -> 0 <= future_horizon self ->
  generate_all_ts_samples env self = Ok samples -> s ∈ samples ->
  exists w,
    window_of self w /\ window_sample env self w = Ok (Some s) /\
    let lead := take (Z.to_nat (past_horizon self)) (df_rows w) in
    length lead = Z.to_nat (past_horizon self) /\
    input s = tensor_of_rows (input_vars self) lead /\
    output s = tensor_of_rows (target_vars self) lead /\
    t_shape (input s) = (Z.to_nat (past_horizon self), length (input_vars self)) /\
    t_shape (output s) = (Z.to_nat (past_horizon self), length (target_vars self)) /\
    length (t_data (output s)) = Z.to_nat (past_horizon self) /\
    Forall (fun row => length row = length (target_vars self)) (t_data (output s)) /\
    forall w',
      df_columns w' = df_columns w ->
      length (df_rows w') = length (df_rows w) ->
      take (Z.to_nat (past_horizon self)) (df_rows w') = lead ->
      window_sample env self w' = Ok (Some s).
Proof.
  intros Hp Hf Hall Hs.
  destruct (generated_sample_origin _ _ _ _ Hall Hs)
    as (table & groups & g & ws & w & Ht & Hg & Hgin & Hws & Hw & Hsample).
  exists w. split; [by exists table, groups, g, ws|]. split; [exact Hsample|].
  pose proof (window_sample_some _ _ _ _ Hsample) as [Hfull _ Hin Hout _ _].
  destruct Hin as (isel & Hisel & Hit), Hout as (osel & Hosel & Hot).
  apply (selection_tensor _ _ _ _ Hisel) in Hit.
  apply (selection_tensor _ _ _ _ Hosel) in Hot.
  rewrite head_rows_nonneg in Hit, Hot by exact Hp.
  assert (Hlen : length (take (Z.to_nat (past_horizon self)) (df_rows w))
                 = Z.to_nat (past_horizon self)).
  { rewrite length_take. unfold nrows in Hfull. lia. }
  cbv zeta. rewrite Hit, Hot. unfold tensor_of_rows; simpl.
  rewrite Hlen, length_map, Hlen.
  repeat split; try reflexivity.
  - apply Forall_map, Forall_true. intros r. simpl. by rewrite length_map.
  - intros w' Hcols Hlen' Hlead.
    rewrite <- Hsample. by apply window_sample_leading.
Qed.

End Claim1.

Lemma C1_witness :
  0 <= past_horizon ex_self /\ 0 <= future_horizon ex_self /\
  generate_all_ts_samples ex_env ex_self = Ok [ex_sample; ex_sample2] /\
  ex_sample ∈ [ex_sample; ex_sample2] /\
  exists w,
    window_of ex_self w /\ window_sample ex_env ex_self w = Ok (Some ex_sample) /\
    let lead := take (Z.to_nat (past_horizon ex_self)) (df_rows w) in
    length lead = Z.to_nat (past_horizon ex_self) /\
    input ex_sample = tensor_of_rows (input_vars ex_self) lead /\
    output ex_sample = tensor_of_rows (target_vars ex_self) lead /\
    t_shape (input ex_sample)
      = (Z.to_nat (past_horizon ex_self), length (input_vars ex_self)) /\
    t_shape (output ex_sample)
      = (Z.to_nat (past_horizon ex_self), length (target_vars ex_self)) /\
    length (t_data (output ex_sample)) = Z.to_nat (past_horizon ex_self) /\
    Forall (fun row => length row = length (target_vars ex_self))
      (t_data (output ex_sample)) /\
    forall w',
      df_columns w' = df_columns w ->
      length (df_rows w') = length (df_rows w) ->
      take (Z.to_nat (past_horizon ex_self)) (df_rows w') = lead ->
      window_sample ex_env ex_self w' = Ok (Some ex_sample).
Proof.
  assert (H1 : 0 <= past_horizon ex_self) by (simpl; lia).
  assert (H2 : 0 <= future_horizon ex_self) by (simpl; lia).
  assert (H3 : generate_all_ts_samples ex_env ex_self = Ok [ex_sample; ex_sample2])
    by (vm_compute; reflexivity).
  assert (H4 : ex_sample ∈ [ex_sample; ex_sample2]) by (apply list_elem_of_here).
  repeat (split; [assumption|]).
  exact (C1_input_and_output_are_leading_rows ex_env ex_self _ ex_sample H1 H2 H3 H4).
Defined.

(* ===================================================================== *)
(** ** C2: the status gate *)
(* ===================================================================== *)

Section Claim2.
Context `{B : Backend}.

Lemma status_permitted_iff (c : cell) :
  status_permitted c = true <-> c = CStr "TS" \/ c = CStr "HU".
Proof.
  unfold status_permitted. rewrite orb_true_iff, !bool_decide_eq_true. tauto.
Qed.

Lemma window_sample_none env self w :
  window_sample env self w = Ok None -> retained self w = false.
Proof.
  unfold window_sample, retained, full_size. intros H.
  destruct (nrows w =? past_horizon self + future_horizon self); simpl in *;
    [|reflexivity].
  apply bind_ok in H as (last_row & -> & H).
  apply bind_ok in H as (status & Hst & H).
  unfold row_getitem in Hst. destruct (has_column _ w); [|discriminate].
  injection Hst as <-.
  destruct (status_permitted _); simpl in *; [|reflexivity].
  repeat (apply bind_ok in H as (? & _ & H)). discriminate.
Qed.

Lemma window_sample_retained env self w s :
  window_sample env self w = Ok (Some s) -> retained self w = true.
Proof.
  intros [Hfull (last_row & Hlast & _ & Hperm) _ _ _ _]%window_sample_some.
  unfold retained, full_size. rewrite Hlast, Hperm.
  apply andb_true_iff. split; [by apply Z.eqb_eq | reflexivity].
Qed.

Lemma kept_of_retained env self ws os :
  Forall2 (fun w o => window_sample env self w = Ok o) ws os ->
  Forall2 (fun w s => window_sample env self w = Ok (Some s))
    (List.filter (retained self) ws) (kept os).
Proof.
  induction 1 as [|w o ws os Hw _ IH]; simpl; [constructor|].
  destruct o as [s|].
  - rewrite (window_sample_retained _ _ _ _ Hw). by constructor.
  - rewrite (window_sample_none _ _ _ Hw). exact IH.
Qed.

(** C2. (1) Every generated sample was built from a full-size window whose
    last leading row ([w.head(past_horizon).iloc[-1]]) has status "TS" or
    "HU".  (2) A full-size window whose row at that position carries any
    other status is skipped: the loop body yields no sample for it.
    (3) For a storm whose generation succeeds, the samples are, one for one
    and in order, those of the windows that pass the size and status gates. *)
Theorem C2_status_gate env self :
  (forall samples s,
     generate_all_ts_samples env self = Ok samples -> s ∈ samples ->
     exists w last_row,
       window_of self w /\ window_sample env self w = Ok (Some s) /\
       full_size self w = true /\
       iloc_last (head (past_horizon self) w) = Ok last_row /\
       (cell_at last_row "system_status" = CStr "TS" \/
        cell_at last_row "system_status" = CStr "HU")) /\
  (forall w last_row,
     full_size self w = true ->
     iloc_last (head (past_horizon self) w) = Ok last_row ->
     has_column "system_status" w = true ->
     cell_at last_row "system_status" <> CStr "TS" ->
     cell_at last_row "system_status" <> CStr "HU" ->
     window_sample env self w = Ok None) /\
  (forall storm_df ws data,
     rolling (past_horizon self + future_horizon self) storm_df = Ok ws ->
     generate_storm_ts_samples env self storm_df = Ok data ->
     Forall2 (fun w s => window_sample env self w = Ok (Some s))
       (List.filter (retained self) ws) data).
Proof.
  split; [|split].
  - intros samples s Hall Hs.
    destruct (generated_sample_origin _ _ _ _ Hall Hs)
      as (table & groups & g & ws & w & Ht & Hg & Hgin & Hws & Hw & Hsample).
    pose proof (window_sample_some _ _ _ _ Hsample)
      as [Hfull (last_row & Hlast & _ & Hperm) _ _ _ _].
    exists w, last_row. split; [by exists table, groups, g, ws|].
    repeat split; try assumption.
    + unfold full_size. by apply Z.eqb_eq.
    + by apply status_permitted_iff.
  - intros w last_row Hfull Hlast Hcol Hts Hhu.
    unfold window_sample. unfold full_size in Hfull. rewrite Hfull. simpl.
    rewrite Hlast. simpl. unfold row_getitem. rewrite Hcol. simpl.
    destruct (status_permitted _) eqn:Hperm; [|reflexivity].
    apply status_permitted_iff in Hperm. tauto.
  - intros storm_df ws data Hws Hgen.
    apply generate_storm_ok in Hgen as (ws' & os & Hws' & Hos & ->).
    assert (ws' = ws) as -> by congruence.
    apply kept_of_retained. by apply traverse_ok.
Qed.

End Claim2.

Lemma C2_witness :
  (exists w last_row,
     window_of ex_self w /\ window_sample ex_env ex_self w = Ok (Some ex_sample) /\
     full_size ex_self w = true /\
     iloc_last (head (past_horizon ex_self) w) = Ok last_row /\
     (cell_at last_row "system_status" = CStr "TS" \/
      cell_at last_row "system_status" = CStr "HU")) /\
  window_sample ex_env ex_self ex_window_td = Ok None /\
  Forall2 (fun w s => window_sample ex_env ex_self w = Ok (Some s))
    (List.filter (retained ex_self) ex_storm_windows) [ex_sample; ex_sample2].
Proof.
  destruct (C2_status_gate ex_env ex_self) as (H1 & H2 & H3).
  split; [|split].
  - apply (H1 [ex_sample; ex_sample2] ex_sample);
      [vm_compute; reflexivity | apply list_elem_of_here].
  - apply (H2 ex_window_td (ex_row "AL01" 2020 9 10 12 "TD" 7 8));
      try (vm_compute; reflexivity); vm_compute; discriminate.
  - apply (H3 ex_storm); vm_compute; reflexivity.
Defined.

(* ===================================================================== *)
(** ** C3: window size, stride and short storms *)
(* ===================================================================== *)

Section RollingFacts.
Context `{B : Backend}.

Lemma filter_all_false {A} (f : A -> bool) (l : list A) :
  Forall (fun x => f x = false) l -> List.filter f l = [].
Proof. induction 1 as [|x l Hx _ IH]; simpl; [reflexivity | by rewrite Hx]. Qed.

Lemma filter_all_true {A} (f : A -> bool) (l : list A) :
  Forall (fun x => f x = true) l -> List.filter f l = l.
Proof. induction 1 as [|x l Hx _ IH]; simpl; [reflexivity | by rewrite Hx, IH]. Qed.

Lemma rolling_ok (window : Z) (df : DataFrame) :
  0 <= window ->
  rolling window df =
    Ok (map (fun i => iloc_slice (i - Z.to_nat window) i df)
            (seq 1 (length (df_rows df)))).
Proof. intros H. unfold rolling. destruct (window <? 0) eqn:E; [lia | reflexivity]. Qed.

Lemma iloc_slice_length (start stop : nat) (df : DataFrame) :
  length (df_rows (iloc_slice start stop df))
  = ((stop - start) `min` (length (df_rows df) - start))%nat.
Proof. unfold iloc_slice; simpl. by rewrite length_take, length_drop. Qed.

(** The [i]-th window (from 1) of a table of [n >= i] rows has
    [min i window] rows. *)
Lemma window_nrows (wsize i : nat) (df : DataFrame) :
  (1 <= i <= length (df_rows df))%nat ->
  length (df_rows (iloc_slice (i - wsize) i df)) = (i `min` wsize)%nat.
Proof. intros H. rewrite iloc_slice_length. lia. Qed.


Lemma windows_by_offset (wsize a k : nat) (df : DataFrame) :
  map (fun i => iloc_slice (i - wsize) i df) (seq (a + wsize) k)
  = map (fun j => iloc_slice j (j + wsize) df) (seq a k).
Proof.
  revert a. induction k as [|k IH]; intros a; simpl; [reflexivity|].
  f_equal; [f_equal; lia | apply (IH (S a))].
Qed.

(** Among the windows of the rolling object, the full-size ones are the
    contiguous slices at offsets 0, 1, ..., n - window, in that order. *)
Lemma full_windows self (df : DataFrame) ws :
  0 < past_horizon self + future_horizon self ->
  rolling (past_horizon self + future_horizon self) df = Ok ws ->
  List.filter (full_size self) ws =
    map (fun j => iloc_slice j (j + Z.to_nat (past_horizon self + future_horizon self)) df)
        (seq 0 (length (df_rows df) + 1
                - Z.to_nat (past_horizon self + future_horizon self))).
Proof.
  intros HW Hws. rewrite rolling_ok in Hws by lia. injection Hws as <-.
  set (W := Z.to_nat (past_horizon self + future_horizon self)).
  set (n := length (df_rows df)).
  assert (HWpos : (1 <= W)%nat) by (unfold W; lia).
  assert (Hfull : forall i, (1 <= i <= n)%nat ->
            full_size self (iloc_slice (i - W) i df) = bool_decide (W <= i)%nat).
  { intros i Hi. unfold full_size, nrows. rewrite window_nrows by exact Hi.
    case_bool_decide; [apply Z.eqb_eq | apply Z.eqb_neq]; unfold W in *; lia. }
  destruct (decide (n < W)%nat) as [Hshort|Hlong].
  - replace (n + 1 - W)%nat with 0%nat by lia. simpl.
    apply filter_all_false, Forall_map, Forall_forall.
    intros i Hi%elem_of_seq. simpl. rewrite Hfull by lia.
    apply bool_decide_eq_false. lia.
  - replace n with ((W - 1) + (n + 1 - W))%nat at 1 by lia.
    rewrite seq_app, map_app, List.filter_app.
    rewrite filter_all_false, filter_all_true; simpl.
    + replace (S (W - 1)) with (0 + W)%nat by lia.
      apply windows_by_offset.
    + apply Forall_map, Forall_forall. intros i Hi%elem_of_seq. simpl.
      rewrite Hfull by lia. apply bool_decide_eq_true. lia.
    + apply Forall_map, Forall_forall. intros i Hi%elem_of_seq. simpl.
      rewrite Hfull by lia. apply bool_decide_eq_false. lia.
Qed.

Lemma window_sample_short env self w :
  full_size self w = false -> window_sample env self w = Ok None.
Proof. unfold window_sample, full_size. by intros ->. Qed.

Lemma traverse_all_none env self ws :
  Forall (fun w => full_size self w = false) ws ->
  exists os, traverse (window_sample env self) ws = Ok os /\ kept os = [].
Proof.
  induction 1 as [|w ws Hw _ (os & Hos & Hk)]; simpl.
  - by exists [].
  - rewrite (window_sample_short _ _ _ Hw), Hos. simpl. by exists (None :: os).
Qed.


End RollingFacts.

Section Totality.
Context `{B : Backend}.

Lemma valid_timestamp_datetime (r : gmap string cell) :
  valid_timestamp r ->
  is_ok (datetime_new (cell_at r "year", cell_at r "month", cell_at r "day",
                       cell_at r "hour")).
Proof.
  intros (y & m & d & h & -> & -> & -> & -> & Hy & Hm & Hd & Hh).
  unfold datetime_new; simpl.
  replace (1 <=? y) with true by (symmetry; apply Z.leb_le; lia).
  replace (y <=? 9999) with true by (symmetry; apply Z.leb_le; lia).
  replace (1 <=? m) with true by (symmetry; apply Z.leb_le; lia).
  replace (m <=? 12) with true by (symmetry; apply Z.leb_le; lia).
  replace (1 <=? d) with true by (symmetry; apply Z.leb_le; lia).
  replace (d <=? days_in_month y m) with true by (symmetry; apply Z.leb_le; lia).
  replace (0 <=? h) with true by (symmetry; apply Z.leb_le; lia).
  replace (h <=? 23) with true by (symmetry; apply Z.leb_le; lia).
  simpl. eexists; reflexivity.
Qed.

Lemma zip_columns (rows : list (gmap string cell)) (a b c d : string) :
  zip (zip (zip (map (fun r => cell_at r a) rows) (map (fun r => cell_at r b) rows))
           (map (fun r => cell_at r c) rows))
      (map (fun r => cell_at r d) rows)
  = map (fun r => (cell_at r a, cell_at r b, cell_at r c, cell_at r d)) rows.
Proof. induction rows as [|r rows IH]; simpl; [reflexivity | by rewrite IH]. Qed.

(** With the four time columns present, the datetimes of a slice are
    built row by row. *)
Lemma slice_datetimes_rows (slice : DataFrame) :
  has_column "year" slice = true -> has_column "month" slice = true ->
  has_column "day" slice = true -> has_column "hour" slice = true ->
  slice_datetimes slice =
    traverse (fun r => datetime_new (cell_at r "year", cell_at r "month",
                                     cell_at r "day", cell_at r "hour"))
             (df_rows slice).
Proof.
  intros Hy Hm Hd Hh. unfold slice_datetimes, getitem.
  rewrite Hy, Hm, Hd, Hh. simpl. by rewrite zip_columns, traverse_map.
Qed.

Lemma numeric_selection (df : DataFrame) (vars : list string) :
  Forall (numeric_column df) vars ->
  exists ds, traverse (column_dtype (df_columns df)) vars = Ok ds /\
             Forall (fun d => d <> object) ds.
Proof.
  induction 1 as [|v vars Hv _ (ds & Hds & Hno)]; simpl.
  - by exists [].
  - destruct Hv as [Hv|Hv]; rewrite Hv, Hds; simpl;
      eexists; (split; [reflexivity|]); by constructor.
Qed.

Lemma numeric_tensor (slice : DataFrame) (vars : list string) :
  Forall (numeric_column slice) vars ->
  exists sel t, getitem_list slice vars = Ok sel /\ tensor_of_values sel = Ok t.
Proof.
  intros (ds & Hds & Hno)%numeric_selection.
  unfold getitem_list, tensor_of_values. rewrite Hds. simpl.
  assert (existsb (fun cd : string * dtype => bool_decide (cd.2 = object)) (zip vars ds)
          = false) as Hex.
  { clear Hds. revert vars. induction Hno as [|d ds Hd _ IH]; intros vars.
    - by destruct vars.
    - destruct vars as [|v vars]; simpl; [reflexivity|].
      rewrite IH. by rewrite bool_decide_eq_false_2. }
  eexists _, _. split; [reflexivity|]. simpl. by rewrite Hex.
Qed.


End Totality.

Section Claim3.
Context `{B : Backend}.


End Claim3.



(* ===================================================================== *)
(** ** C4: the raster of the day before *)
(* ===================================================================== *)

Section DateFacts.
Context `{B : Backend}.

Lemma datetime_new_valid (x : cell * cell * cell * cell) (dt : datetime) :
  datetime_new x = Ok dt -> valid_datetime dt.
Proof.
  destruct x as [[[cy cm] cd] ch]. unfold datetime_new. intros H.
  apply bind_ok in H as (y & _ & H). apply bind_ok in H as (m & _ & H).
  apply bind_ok in H as (d & _ & H). apply bind_ok in H as (h & _ & H).
  destruct (_ && _) eqn:E in H; [|discriminate]. injection H as <-.
  repeat (apply andb_true_iff in E as [E ?]).
  unfold valid_datetime; simpl. lia.
Qed.

Lemma datetime_new_fields (x : cell * cell * cell * cell) (dt : datetime) :
  datetime_new x = Ok dt ->
  x = (CInt (dt_year dt), CInt (dt_month dt), CInt (dt_day dt), CInt (dt_hour dt)) /\
  dt_minute dt = 0 /\ dt_second dt = 0.
Proof.
  destruct x as [[[cy cm] cd] ch]. unfold datetime_new. intros H.
  apply bind_ok in H as (y & Hy & H). apply bind_ok in H as (m & Hm & H).
  apply bind_ok in H as (d & Hd & H). apply bind_ok in H as (h & Hh & H).
  destruct (_ && _) in H; [|discriminate]. injection H as <-. simpl.
  destruct cy, cm, cd, ch; try discriminate.
  injection Hy as ->. injection Hm as ->. injection Hd as ->. injection Hh as ->.
  done.
Qed.

Lemma days_before_year_succ (y : Z) :
  days_before_year (y + 1) = days_before_year y + 365 + (if is_leap y then 1 else 0).
Proof.
  unfold days_before_year, is_leap.
  replace (y + 1 - 1) with y by lia.
  destruct (y mod 4 =? 0) eqn:E4; destruct (y mod 100 =? 0) eqn:E100;
    destruct (y mod 400 =? 0) eqn:E400; simpl;
    rewrite ?Z.eqb_eq, ?Z.eqb_neq in *; Z.div_mod_to_equations; lia.
Qed.

Lemma days_before_month_succ (y m : Z) :
  1 <= m <= 11 ->
  days_before_month y (m + 1) = days_before_month y m + days_in_month y m.
Proof.
  intros Hm.
  assert (m = 1 \/ m = 2 \/ m = 3 \/ m = 4 \/ m = 5 \/ m = 6 \/ m = 7 \/ m = 8
          \/ m = 9 \/ m = 10 \/ m = 11) as Hcases by lia.
  unfold days_before_month, days_in_month.
  repeat (destruct Hcases as [-> | Hcases]); try subst m;
    destruct (is_leap y); reflexivity.
Qed.

(** Subtracting one day lands on the previous day of the calendar. *)
Lemma sub_one_day_spec (dt lag : datetime) :
  valid_datetime dt -> sub_one_day dt = Ok lag ->
  valid_datetime lag /\ toordinal lag = toordinal dt - 1 /\
  dt_hour lag = dt_hour dt /\ dt_minute lag = dt_minute dt /\
  dt_second lag = dt_second dt.
Proof.
  intros (Hy & Hm & Hd & Hh). unfold sub_one_day.
  destruct (dt_day dt - 1 =? 0) eqn:Ed.
  - apply Z.eqb_eq in Ed.
    destruct (0 <? dt_month dt - 1) eqn:Em.
    + apply Z.ltb_lt in Em.
      destruct (_ && _) eqn:E; [|discriminate]. intros [= <-].
      unfold valid_datetime, toordinal; simpl.
      pose proof (days_before_month_succ (dt_year dt) (dt_month dt - 1)) as Hs.
      replace (dt_month dt - 1 + 1) with (dt_month dt) in Hs by lia.
      assert (1 <= days_in_month (dt_year dt) (dt_month dt - 1)).
      { assert (dt_month dt - 1 = 1 \/ dt_month dt - 1 = 2 \/ dt_month dt - 1 = 3
                \/ dt_month dt - 1 = 4 \/ dt_month dt - 1 = 5 \/ dt_month dt - 1 = 6
                \/ dt_month dt - 1 = 7 \/ dt_month dt - 1 = 8 \/ dt_month dt - 1 = 9
                \/ dt_month dt - 1 = 10 \/ dt_month dt - 1 = 11) as Hc by lia.
        unfold days_in_month.
        repeat (destruct Hc as [-> | Hc]); try rewrite Hc;
          destruct (is_leap (dt_year dt)); simpl; lia. }
      lia.
    + apply Z.ltb_ge in Em.
      destruct (_ && _) eqn:E; [|discriminate]. intros [= <-].
      apply andb_true_iff in E as [E1 E2]. apply Z.leb_le in E1, E2.
      assert (dt_month dt = 1) as Hm1 by lia.
      unfold valid_datetime, toordinal; simpl. rewrite Hm1.
      pose proof (days_before_year_succ (dt_year dt - 1)) as Hs.
      replace (dt_year dt - 1 + 1) with (dt_year dt) in Hs by lia.
      unfold days_before_month, days_in_month in *; simpl.
      destruct (is_leap (dt_year dt - 1)); simpl in *; lia.
  - apply Z.eqb_neq in Ed.
    destruct (_ && _) eqn:E; [|discriminate]. intros [= <-].
    unfold valid_datetime, toordinal; simpl. lia.
Qed.

Lemma string_length_app (s1 s2 : string) :
  String.length (s1 +:+ s2) = (String.length s1 + String.length s2)%nat.
Proof. induction s1 as [|c s1 IH]; simpl; [reflexivity | by rewrite IH]. Qed.

Lemma zdigits_length (w : nat) (z : Z) : String.length (zdigits w z) = w.
Proof.
  revert z. induction w as [|w IH]; intros z; simpl; [reflexivity|].
  rewrite string_length_app, IH. simpl. lia.
Qed.

Lemma strftime_date_length (dt : datetime) : String.length (strftime_date dt) = 10%nat.
Proof.
  unfold strftime_date. rewrite !string_length_app, !zdigits_length. reflexivity.
Qed.

Lemma sub_one_day_key (dt lag : datetime) :
  valid_datetime dt -> sub_one_day dt = Ok lag ->
  day_before_key dt (strftime_date lag).
Proof.
  intros Hv Hlag. destruct (sub_one_day_spec _ _ Hv Hlag) as (Hvl & Hord & _).
  exists lag. split; [exact Hlag|]. split; [exact Hvl|]. split; [exact Hord|].
  split; [reflexivity | apply strftime_date_length].
Qed.

Lemma item_ok {A} (s : list A) (x : A) : item s = Ok x <-> s = [x].
Proof.
  unfold item. destruct s as [|y [|z s]]; split; intros H; try discriminate;
    congruence.
Qed.

Lemma oisst_path_ok (table : DataFrame) (key : string) (fp : cell) :
  oisst_path table key = Ok fp ->
  has_column "datetime" table = true /\
  has_column "processed_file_path" table = true /\
  unique_index_entry table key fp.
Proof.
  unfold oisst_path, getitem. intros H.
  destruct (has_column "datetime" table); [|discriminate]. simpl in H.
  unfold has_column, columns in H |- *. simpl in H.
  destruct (bool_decide _); [|discriminate]. simpl in H.
  apply item_ok in H. split; [reflexivity|]. split; [reflexivity|].
  unfold unique_index_entry.
  destruct (filter _ (df_rows table)) as [|r [|r' rows]]; try discriminate.
  injection H as <-. by exists r.
Qed.

Lemma oisst_frame_ok env (table : DataFrame) (dt : datetime) (frame : ndarray) :
  valid_datetime dt ->
  oisst_frame env table dt = Ok frame ->
  exists key fp raw,
    day_before_key dt key /\ unique_index_entry table key fp /\
    load_raster env fp = Ok raw /\ prepare_raster raw = Ok frame.
Proof.
  intros Hv. unfold oisst_frame. intros H.
  apply bind_ok in H as (lag & Hlag & H).
  apply bind_ok in H as (fp & Hfp & H).
  apply bind_ok in H as (raw & Hraw & H).
  exists (strftime_date lag), fp, raw.
  split; [by apply sub_one_day_key|].
  split; [by apply oisst_path_ok in Hfp as (_ & _ & ?)|].
  split; [exact Hraw | exact H].
Qed.

End DateFacts.

Section Claim4.
Context `{B : Backend}.

Lemma slice_datetimes_ok (slice : DataFrame) dts :
  slice_datetimes slice = Ok dts ->
  Forall2 (fun r dt =>
             datetime_new (cell_at r "year", cell_at r "month", cell_at r "day",
                           cell_at r "hour") = Ok dt)
          (df_rows slice) dts.
Proof.
  intros H. apply traverse_ok. rewrite <- H.
  unfold slice_datetimes, getitem in H.
  destruct (has_column "year" slice) eqn:Hy; [|discriminate].
  destruct (has_column "month" slice) eqn:Hm; [|discriminate].
  destruct (has_column "day" slice) eqn:Hd; [|discriminate].
  destruct (has_column "hour" slice) eqn:Hh; [|discriminate].
  symmetry. by apply slice_datetimes_rows.
Qed.

Lemma slice_datetimes_valid (slice : DataFrame) dts :
  slice_datetimes slice = Ok dts -> Forall valid_datetime dts.
Proof.
  intros H%slice_datetimes_ok. induction H as [|r dt rows dts Hdt _ IH];
    constructor; [by eapply datetime_new_valid | exact IH].
Qed.

Lemma stack_ok (ts : list ndarray) st :
  stack ts = Ok st ->
  ts <> [] /\ st_frames st = map nd_buf ts /\
  forall t, t ∈ ts -> st_shape st = length ts :: nd_shape t.
Proof.
  unfold stack. destruct ts as [|t ts]; [discriminate|].
  destruct (forallb _ ts) eqn:Hall; [|discriminate]. intros [= <-]. simpl.
  split; [discriminate|]. split; [reflexivity|].
  intros t' [->|Hin]%elem_of_cons; [reflexivity|].
  rewrite forallb_forall in Hall. apply list_elem_of_In, Hall in Hin.
  apply bool_decide_eq_true in Hin. by rewrite Hin.
Qed.

Lemma attach_oisst_some env self (table : DataFrame) dts o :
  oisst_table self = Some table ->
  attach_oisst env self dts = Ok o ->
  exists frames st,
    o = Some st /\
    Forall2 (fun dt frame => oisst_frame env table dt = Ok frame) dts frames /\
    stack frames = Ok st.
Proof.
  unfold attach_oisst. intros -> H.
  apply bind_ok in H as (frames & Hfr & H).
  apply bind_ok in H as (st & Hst & [= <-]).
  exists frames, st. by rewrite <- traverse_ok.
Qed.

(** C4. With a raster index supplied, every generated sample carries one
    raster per input timestep, and the raster of a timestep is the file
    that the index lists, exactly once, under the date string of the
    calendar day before that timestep (ordinal minus one, YYYY-MM-DD).  In
    particular the timestep 2020-09-10 00:00:00 looks up "2020-09-09", and
    against an index without that date the lookup fails whatever else the
    index holds, "2020-09-10" included. *)
Theorem C4_raster_of_previous_day env self (table : DataFrame) :
  oisst_table self = Some table ->
  (forall samples s,
     generate_all_ts_samples env self = Ok samples -> s ∈ samples ->
     exists w dts st,
       window_of self w /\
       slice_datetimes (head (past_horizon self) w) = Ok dts /\
       input_dt s = map strftime_full dts /\
       input_oisst s = Some st /\
       Forall2 (fun dt buf =>
                  exists key fp raw frame,
                    day_before_key dt key /\ unique_index_entry table key fp /\
                    load_raster env fp = Ok raw /\ prepare_raster raw = Ok frame /\
                    buf = nd_buf frame)
               dts (st_frames st)) /\
  (forall dt,
     datetime_new (CInt 2020, CInt 9, CInt 10, CInt 0) = Ok dt ->
     strftime_full dt = "2020-09-10 00:00:00" /\
     day_before_key dt "2020-09-09" /\
     (Forall (fun r => cell_at r "datetime" <> CStr "2020-09-09") (df_rows table) ->
      fails (oisst_frame env table dt))).
Proof.
  intros Htable. split.
  - intros samples s Hall Hs.
    destruct (generated_sample_origin _ _ _ _ Hall Hs)
      as (tbl & groups & g & ws & w & Ht & Hg & Hgin & Hws & Hw & Hsample).
    pose proof (window_sample_some _ _ _ _ Hsample)
      as [_ _ _ _ (dts & Hdts & Hin & _ & Hatt) _].
    destruct (attach_oisst_some _ _ _ _ _ Htable Hatt) as (frames & st & Hst & Hfr & Hstack).
    exists w, dts, st. split; [by exists tbl, groups, g, ws|].
    split; [exact Hdts|]. split; [exact Hin|]. split; [by rewrite Hst|].
    apply stack_ok in Hstack as (_ & -> & _).
    pose proof (slice_datetimes_valid _ _ Hdts) as Hvalid.
    clear Hdts Hin Hatt. induction Hfr as [|dt frame dts frames Hf _ IH]; simpl;
      [constructor|].
    inversion Hvalid as [|? ? Hv Hvs]; subst. constructor; [|by apply IH].
    destruct (oisst_frame_ok _ _ _ _ Hv Hf) as (key & fp & raw & Hk & Hu & Hl & Hp).
    by exists key, fp, raw, frame.
  - intros dt Hdt. vm_compute in Hdt. injection Hdt as <-.
    split; [reflexivity|]. split.
    + exists {| dt_year := 2020; dt_month := 9; dt_day := 9; dt_hour := 0;
                dt_minute := 0; dt_second := 0 |}.
      split; [reflexivity|].
      split; [unfold valid_datetime; simpl; change (days_in_month 2020 9) with 30; lia|].
      split; [reflexivity|]. split; reflexivity.
    + intros Hnone. unfold oisst_frame.
      change (sub_one_day _) with
        (Ok {| dt_year := 2020; dt_month := 9; dt_day := 9; dt_hour := 0;
               dt_minute := 0; dt_second := 0 |}).
      simpl bind.
      change (strftime_date _) with "2020-09-09".
      destruct (oisst_path table "2020-09-09") as [fp|e] eqn:Hfp; [|by exists e].
      apply oisst_path_ok in Hfp as (_ & _ & r & Hr & _).
      assert (r ∈ filter (fun r => cell_at r "datetime" = CStr "2020-09-09")
                         (df_rows table)) as Hin by (rewrite Hr; apply list_elem_of_here).
      apply list_elem_of_filter in Hin as [Heq Hin].
      rewrite Forall_forall in Hnone. by apply Hnone in Hin.
Qed.

End Claim4.

Lemma C4_witness :
  (exists w dts st,
     window_of ex_self w /\
     slice_datetimes (head (past_horizon ex_self) w) = Ok dts /\
     input_dt ex_sample = map strftime_full dts /\
     input_oisst ex_sample = Some st /\
     Forall2 (fun dt buf =>
                exists key fp raw frame,
                  day_before_key dt key /\ unique_index_entry ex_index key fp /\
                  load_raster ex_env fp = Ok raw /\ prepare_raster raw = Ok frame /\
                  buf = nd_buf frame)
             dts (st_frames st)) /\
  strftime_full ex_dt = "2020-09-10 00:00:00" /\
  day_before_key ex_dt "2020-09-09" /\
  fails (oisst_frame ex_env ex_index_late ex_dt).
Proof.
  split.
  - apply (proj1 (C4_raster_of_previous_day ex_env ex_self ex_index eq_refl)
             [ex_sample; ex_sample2] ex_sample);
      [vm_compute; reflexivity | apply list_elem_of_here].
  - destruct (proj2 (C4_raster_of_previous_day ex_env ex_self_late ex_index_late eq_refl)
                ex_dt eq_refl) as (H1 & H2 & H3).
    split; [exact H1|]. split; [exact H2|].
    apply H3. repeat constructor; vm_compute; discriminate.
Defined.

(* ===================================================================== *)
(** ** C5: a raster date must resolve to exactly one index entry *)
(* ===================================================================== *)

Section Claim5.
Context `{B : Backend}.

Lemma groupby_functional (key : string) (df : DataFrame) g1 g2 :
  groupby key df = Ok g1 -> groupby key df = Ok g2 -> g1 = g2.
Proof. congruence. Qed.

(** When generation succeeds, the loop body succeeded on every window of
    every group. *)
Lemma generated_window_ok env self samples w :
  generate_all_ts_samples env self = Ok samples -> window_of self w ->
  exists o, window_sample env self w = Ok o.
Proof.
  intros Hall (table & groups & g & ws & Ht & Hg & Hgin & Hws & Hw).
  apply generate_all_ok in Hall as (table' & groups' & ss & Ht' & Hg' & Hss & _).
  assert (table' = table) as -> by congruence.
  assert (groups' = groups) as -> by congruence.
  destruct (proj1 (list_elem_of_lookup _ _) Hgin) as [i Hi].
  destruct (Forall2_lookup_l _ _ _ _ _ Hss Hi) as (data & _ & Hgen).
  apply generate_storm_ok in Hgen as (ws' & os & Hws' & Hos & _).
  assert (ws' = ws) as -> by congruence.
  apply traverse_ok in Hos.
  destruct (proj1 (list_elem_of_lookup _ _) Hw) as [j Hj].
  destruct (Forall2_lookup_l _ _ _ _ _ Hos Hj) as (o & _ & Ho). by exists o.
Qed.

Lemma oisst_path_not_unique (table : DataFrame) (key : string) :
  has_column "datetime" table = true ->
  has_column "processed_file_path" table = true ->
  length (filter (fun r => cell_at r "datetime" = CStr key) (df_rows table)) <> 1%nat ->
  oisst_path table key = Raise ValueError.
Proof.
  intros Hd Hp Hn. unfold oisst_path, getitem. rewrite Hd. simpl.
  unfold has_column, columns in Hp |- *. simpl. rewrite Hp. simpl.
  destruct (filter _ (df_rows table)) as [|r [|r' rows]]; simpl in *;
    [reflexivity | congruence | reflexivity].
Qed.

(** C5. (1) With both index columns present, a lookup date that matches no
    row or more than one row of the index makes the lookup raise the
    [ValueError] of [Series.item()] (the failure the taxonomy calls
    LookupError), and so does the raster step of that timestep.
    (2) If some window that passes the size and status gates has an input
    timestep whose lookup date does not match exactly one index row, then
    the loop body fails on that window and the whole generation fails: no
    sample collection is returned, hence no partial sample. *)
Theorem C5_lookup_needs_exactly_one_match env self (table : DataFrame) :
  oisst_table self = Some table ->
  (forall key,
     has_column "datetime" table = true ->
     has_column "processed_file_path" table = true ->
     length (filter (fun r => cell_at r "datetime" = CStr key) (df_rows table)) <> 1%nat ->
     oisst_path table key = Raise ValueError /\
     forall dt lag, sub_one_day dt = Ok lag -> key = strftime_date lag ->
                    oisst_frame env table dt = Raise ValueError) /\
  (forall w dts dt key,
     window_of self w -> retained self w = true ->
     slice_datetimes (head (past_horizon self) w) = Ok dts -> dt ∈ dts ->
     day_before_key dt key ->
     length (filter (fun r => cell_at r "datetime" = CStr key) (df_rows table)) <> 1%nat ->
     fails (window_sample env self w) /\ fails (generate_all_ts_samples env self)).
Proof.
  intros Htable. split.
  - intros key Hd Hp Hn.
    pose proof (oisst_path_not_unique table key Hd Hp Hn) as Hpath.
    split; [exact Hpath|].
    intros dt lag Hlag ->. unfold oisst_frame. rewrite Hlag. simpl.
    by rewrite Hpath.
  - intros w dts dt key Hw Hret Hdts Hdt (lag & Hlag & _ & _ & -> & _) Hn.
    assert (Hwin : fails (window_sample env self w)).
    { apply fails_not_ok. intros [o Ho].
      destruct o as [s|]; [|apply window_sample_none in Ho; congruence].
      pose proof (window_sample_some _ _ _ _ Ho)
        as [_ _ _ _ (dts' & Hdts' & _ & _ & Hatt) _].
      assert (dts' = dts) as -> by congruence.
      destruct (attach_oisst_some _ _ _ _ _ Htable Hatt) as (frames & st & _ & Hfr & _).
      destruct (proj1 (list_elem_of_lookup _ _) Hdt) as [i Hi].
      destruct (Forall2_lookup_l _ _ _ _ _ Hfr Hi) as (frame & _ & Hframe).
      unfold oisst_frame in Hframe. rewrite Hlag in Hframe. simpl in Hframe.
      apply bind_ok in Hframe as (fp & Hfp & _).
      apply oisst_path_ok in Hfp as (_ & _ & r & Hr & _).
      rewrite Hr in Hn. by apply Hn. }
    split; [exact Hwin|].
    apply fails_not_ok. intros [samples Hall].
    destruct (generated_window_ok _ _ _ _ Hall Hw) as [o Ho].
    destruct Hwin as [e He]. congruence.
Qed.

End Claim5.

Lemma ex_window_of_late : window_of ex_self_late ex_window.
Proof.
  exists ex_table. eexists. exists (CStr "AL01", ex_storm), ex_storm_windows.
  split; [reflexivity|]. split; [vm_compute; reflexivity|].
  split; [apply list_elem_of_here|]. split; [vm_compute; reflexivity|].
  apply list_elem_of_further, list_elem_of_here.
Defined.

Lemma C5_witness :
  (oisst_path ex_index_late "2020-09-09" = Raise ValueError /\
   forall dt lag, sub_one_day dt = Ok lag -> "2020-09-09" = strftime_date lag ->
                  oisst_frame ex_env ex_index_late dt = Raise ValueError) /\
  fails (window_sample ex_env ex_self_late ex_window) /\
  fails (generate_all_ts_samples ex_env ex_self_late).
Proof.
  pose proof (C5_lookup_needs_exactly_one_match ex_env ex_self_late ex_index_late eq_refl)
    as [H1 H2].
  split.
  - apply H1; [reflexivity | reflexivity | vm_compute; discriminate].
  - apply (H2 ex_window [ex_dt] ex_dt "2020-09-09").
    + exact ex_window_of_late.
    + vm_compute; reflexivity.
    + vm_compute; reflexivity.
    + apply list_elem_of_here.
    + eexists. split; [vm_compute; reflexivity|].
      split; [unfold valid_datetime; simpl; change (days_in_month 2020 9) with 30; lia|].
      split; [reflexivity|]. split; reflexivity.
    + vm_compute; discriminate.
Defined.

(* ===================================================================== *)
(** ** C7: grouping keeps the order of rows and of groups *)
(* ===================================================================== *)

Section GroupFacts.
Context `{B : Backend}.

Lemma bucket_add_keys k r (bs : list (cell * list (gmap string cell))) :
  (bucket_add k r bs).*1 = if decide (k ∈ bs.*1) then bs.*1 else bs.*1 ++ [k].
Proof.
  induction bs as [|[k' rs] bs IH].
  - rewrite decide_False by apply not_elem_of_nil. reflexivity.
  - cbn [bucket_add]. destruct (decide (k = k')) as [->|Hne].
    + rewrite decide_True by (rewrite fmap_cons; apply list_elem_of_here).
      reflexivity.
    + rewrite !fmap_cons, IH. cbn [fst].
      destruct (decide (k ∈ bs.*1)) as [Hin|Hnin].
      * rewrite decide_True by (by apply list_elem_of_further). reflexivity.
      * rewrite decide_False; [reflexivity|].
        intros [?|?]%elem_of_cons; congruence.
Qed.

Lemma bucket_add_elem k r (bs : list (cell * list (gmap string cell))) k' rs' :
  NoDup bs.*1 -> (k', rs') ∈ bucket_add k r bs ->
  (k' <> k /\ (k', rs') ∈ bs) \/
  (k' = k /\ ((exists rs, (k, rs) ∈ bs /\ rs' = rs ++ [r]) \/
              ((k ∉ bs.*1) /\ rs' = [r]))).
Proof.
  induction bs as [|[k0 rs0] bs IH]; simpl; intros Hnd Hin.
  - apply list_elem_of_singleton in Hin as [= -> ->]. right. split; [reflexivity|].
    right. split; [apply not_elem_of_nil | reflexivity].
  - apply NoDup_cons in Hnd as [Hk0 Hnd].
    destruct (decide (k = k0)) as [->|Hne].
    + apply elem_of_cons in Hin as [[= -> ->]|Hin].
      * right. split; [reflexivity|]. left. exists rs0.
        split; [apply list_elem_of_here | reflexivity].
      * left. split; [|by apply list_elem_of_further].
        intros ->. apply Hk0. apply list_elem_of_fmap. by exists (k0, rs').
    + apply elem_of_cons in Hin as [[= -> ->]|Hin].
      * left. split; [congruence | apply list_elem_of_here].
      * destruct (IH Hnd Hin) as [[H1 H2]|[-> [(rs & H1 & H2)|[H1 H2]]]].
        -- left. split; [exact H1 | by apply list_elem_of_further].
        -- right. split; [reflexivity|]. left. exists rs.
           split; [by apply list_elem_of_further | exact H2].
        -- right. split; [reflexivity|]. right. split; [|exact H2].
           intros [?|?]%elem_of_cons; [congruence | by apply H1].
Qed.

Lemma first_met_before_snoc key rows r ki kj :
  first_met_before key rows ki kj -> first_met_before key (rows ++ [r]) ki kj.
Proof.
  intros (pre & r0 & post & -> & Hk & Hpre).
  exists pre, r0, (post ++ [r]). by rewrite <- app_assoc.
Qed.

Lemma grouped_nil key : grouped key [] [].
Proof.
  constructor; simpl.
  - constructor.
  - by intros k rs ?%elem_of_nil.
  - by intros r ?%elem_of_nil.
  - intros i j ki kj _ H. by rewrite lookup_nil in H.
Qed.

Lemma grouped_skip key rows bs r :
  cell_at r key = CNaN -> grouped key rows bs -> grouped key (rows ++ [r]) bs.
Proof.
  intros Hr [Hnd Hrows Hall Hord]. constructor.
  - exact Hnd.
  - intros k rs Hin. destruct (Hrows k rs Hin) as (Hk & Hne & Heq).
    split; [exact Hk|]. split; [exact Hne|].
    rewrite filter_app, filter_cons_False, filter_nil, app_nil_r by congruence.
    exact Heq.
  - intros r' [Hin|Hin%list_elem_of_singleton]%elem_of_app Hk;
      [by apply Hall | congruence].
  - intros i j ki kj Hij Hi Hj. apply first_met_before_snoc. by apply (Hord i j).
Qed.

Lemma grouped_add key rows bs r :
  cell_at r key <> CNaN -> grouped key rows bs ->
  grouped key (rows ++ [r]) (bucket_add (cell_at r key) r bs).
Proof.
  intros Hr [Hnd Hrows Hall Hord].
  assert (Hfresh : cell_at r key ∉ bs.*1 ->
            Forall (fun r' => cell_at r' key <> cell_at r key) rows).
  { intros Hnin. apply Forall_forall. intros r' Hin Heq.
    apply Hnin. rewrite <- Heq. apply Hall; [exact Hin | congruence]. }
  constructor.
  - rewrite bucket_add_keys. destruct (decide _) as [_|Hnin]; [exact Hnd|].
    apply NoDup_app. split; [exact Hnd|]. split; [|apply NoDup_singleton].
    intros k Hk Hk'. apply list_elem_of_singleton in Hk' as ->. contradiction.
  - intros k rs Hin.
    destruct (bucket_add_elem _ _ _ _ _ Hnd Hin)
      as [[Hne Hold]|[-> [(rs0 & Hold & ->)|[Hnin ->]]]].
    + destruct (Hrows k rs Hold) as (Hk & Hnil & Heq).
      split; [exact Hk|]. split; [exact Hnil|].
      rewrite filter_app, filter_cons_False, filter_nil, app_nil_r by congruence.
      exact Heq.
    + destruct (Hrows _ rs0 Hold) as (Hk & Hnil & Heq).
      split; [exact Hk|]. split; [by destruct rs0|].
      rewrite filter_app, filter_cons_True, filter_nil by reflexivity.
      by rewrite <- Heq.
    + split; [exact Hr|]. split; [discriminate|].
      rewrite filter_app, filter_cons_True, filter_nil by reflexivity.
      replace (filter (fun r0 => cell_at r0 key = cell_at r key) rows) with
        (@nil (gmap string cell)); [reflexivity|].
      symmetry. specialize (Hfresh Hnin). clear -Hfresh.
      induction Hfresh as [|r' rows Hr' _ IH]; [reflexivity|].
      by rewrite filter_cons_False.
  - intros r' [Hin|Hin%list_elem_of_singleton]%elem_of_app Hk;
      rewrite bucket_add_keys; destruct (decide _) as [Hyes|Hno].
    + by apply Hall.
    + apply elem_of_app. left. by apply Hall.
    + by subst.
    + subst. apply elem_of_app. right. apply list_elem_of_here.
  - intros i j ki kj Hij. rewrite bucket_add_keys.
    destruct (decide _) as [Hyes|Hno].
    + intros Hi Hj. apply first_met_before_snoc. by apply (Hord i j).
    + intros Hi Hj.
      apply lookup_snoc_Some in Hj as [[Hjlt Hj]|[Hjeq <-]].
      * rewrite lookup_app_l in Hi by lia.
        apply first_met_before_snoc. by apply (Hord i j).
      * rewrite lookup_app_l in Hi by lia.
        assert (exists rs, (ki, rs) ∈ bs) as [rs Hrs].
        { apply list_elem_of_lookup_2, list_elem_of_fmap in Hi as ([k rs] & -> & Hin).
          by exists rs. }
        destruct (Hrows ki rs Hrs) as (_ & Hnil & Heq).
        destruct rs as [|r0 rs]; [done|].
        assert (r0 ∈ filter (fun r1 => cell_at r1 key = ki) rows) as Hr0
          by (rewrite <- Heq; apply list_elem_of_here).
        apply list_elem_of_filter in Hr0 as [Hr0k Hr0].
        apply list_elem_of_split in Hr0 as (pre & post & ->).
        exists pre, r0, (post ++ [r]). split; [by rewrite <- app_assoc|].
        split; [exact Hr0k|].
        specialize (Hfresh Hno). by apply Forall_app in Hfresh as [? _].
Qed.

Lemma buckets_grouped key rows : grouped key rows (buckets key rows).
Proof.
  unfold buckets. induction rows as [|r rows IH] using rev_ind.
  - apply grouped_nil.
  - rewrite foldl_snoc. unfold bucket_step at 1.
    destruct (cell_at r key) eqn:Hk;
      try (rewrite <- Hk; apply grouped_add; [congruence | exact IH]).
    by apply grouped_skip.
Qed.

End GroupFacts.

Section Claim7.
Context `{B : Backend}.

Lemma groupby_ok (key : string) (table : DataFrame) groups :
  groupby key table = Ok groups ->
  has_column key table = true /\
  groups = map (fun g => (g.1, {| df_columns := df_columns table; df_rows := g.2 |}))
               (buckets key (df_rows table)).
Proof.
  unfold groupby. destruct (has_column key table); [|discriminate].
  by intros [= <-].
Qed.

Lemma groupby_keys (key : string) (table : DataFrame) groups :
  groupby key table = Ok groups -> groups.*1 = (buckets key (df_rows table)).*1.
Proof.
  intros (_ & ->)%groupby_ok. rewrite <- list_fmap_compose. reflexivity.
Qed.

Lemma groupby_elem (key : string) (table : DataFrame) groups k g :
  groupby key table = Ok groups -> (k, g) ∈ groups ->
  df_columns g = df_columns table /\
  (k, df_rows g) ∈ buckets key (df_rows table).
Proof.
  intros (_ & ->)%groupby_ok Hin.
  apply list_elem_of_fmap in Hin as ([k' rs] & [= -> ->] & Hin). by simpl.
Qed.

Lemma concat_between {A} (ss : list (list A)) (i j : nat) si sj :
  (i < j)%nat -> ss !! i = Some si -> ss !! j = Some sj ->
  exists a b c, concat ss = a ++ si ++ b ++ sj ++ c.
Proof.
  intros Hij Hi Hj.
  rewrite <- (take_drop_middle ss i si Hi).
  assert (drop (S i) ss !! (j - S i)%nat = Some sj) as Hj'
    by (rewrite lookup_drop; replace (S i + (j - S i))%nat with j by lia; exact Hj).
  rewrite <- (take_drop_middle _ _ _ Hj').
  exists (concat (take i ss)), (concat (take (j - S i) (drop (S i) ss))),
    (concat (drop (S (j - S i)) (drop (S i) ss))).
  rewrite concat_app, concat_cons, concat_app, concat_cons. reflexivity.
Qed.

(** C7. Grouping the track table by [grouping_var] (1) yields distinct keys,
    (2) gives each group the columns of the table and exactly the rows of
    the table that carry its key, in the order the table has them, and
    (3) lists the groups in the order their keys are first met.  (4) The
    sample collection is the concatenation of the per-storm sample lists in
    that group order, so the samples of an earlier group all come before the
    samples of a later one. *)
Theorem C7_grouping_preserves_order env self (table : DataFrame) groups :
  hurdat_table self = Some table ->
  groupby (grouping_var self) table = Ok groups ->
  NoDup groups.*1 /\
  (forall k g, (k, g) ∈ groups ->
     df_columns g = df_columns table /\ df_rows g <> [] /\
     df_rows g = filter (fun r => cell_at r (grouping_var self) = k) (df_rows table) /\
     sublist (df_rows g) (df_rows table)) /\
  (forall (i j : nat) ki kj,
     (i < j)%nat -> groups.*1 !! i = Some ki -> groups.*1 !! j = Some kj ->
     first_met_before (grouping_var self) (df_rows table) ki kj) /\
  (forall samples,
     generate_all_ts_samples env self = Ok samples ->
     exists ss,
       Forall2 (fun g s => generate_storm_ts_samples env self g.2 = Ok s) groups ss /\
       samples = concat ss /\
       forall (i j : nat) si sj,
         (i < j)%nat -> ss !! i = Some si -> ss !! j = Some sj ->
         exists a b c, samples = a ++ si ++ b ++ sj ++ c).
Proof.
  intros Ht Hg.
  destruct (buckets_grouped (grouping_var self) (df_rows table))
    as [Hnd Hrows _ Hord].
  rewrite <- (groupby_keys _ _ _ Hg) in Hnd, Hord.
  split; [exact Hnd|]. split; [|split; [exact Hord|]].
  - intros k g Hin. destruct (groupby_elem _ _ _ _ _ Hg Hin) as [Hcols Hb].
    destruct (Hrows _ _ Hb) as (_ & Hne & Heq).
    split; [exact Hcols|]. split; [exact Hne|]. split; [exact Heq|].
    rewrite Heq. apply sublist_filter.
  - intros samples Hall.
    apply generate_all_ok in Hall as (table' & groups' & ss & Ht' & Hg' & Hss & ->).
    assert (table' = table) as -> by congruence.
    assert (groups' = groups) as -> by congruence.
    exists ss. split; [exact Hss|]. split; [reflexivity|].
    intros i j si sj. apply concat_between.
Qed.

End Claim7.

Lemma C7_witness :
  NoDup ex_groups.*1 /\
  (forall k g, (k, g) ∈ ex_groups ->
     df_columns g = df_columns ex_table /\ df_rows g <> [] /\
     df_rows g = filter (fun r => cell_at r (grouping_var ex_self) = k)
                        (df_rows ex_table) /\
     sublist (df_rows g) (df_rows ex_table)) /\
  (forall (i j : nat) ki kj,
     (i < j)%nat -> ex_groups.*1 !! i = Some ki -> ex_groups.*1 !! j = Some kj ->
     first_met_before (grouping_var ex_self) (df_rows ex_table) ki kj) /\
  (forall samples,
     generate_all_ts_samples ex_env ex_self = Ok samples ->
     exists ss,
       Forall2 (fun g s => generate_storm_ts_samples ex_env ex_self g.2 = Ok s)
         ex_groups ss /\
       samples = concat ss /\
       forall (i j : nat) si sj,
         (i < j)%nat -> ss !! i = Some si -> ss !! j = Some sj ->
         exists a b c, samples = a ++ si ++ b ++ sj ++ c).
Proof.
  apply (C7_grouping_preserves_order ex_env ex_self ex_table ex_groups).
  - reflexivity.
  - vm_compute. reflexivity.
Defined.

(* ===================================================================== *)
(** ** C6: what makes construction fail *)
(* ===================================================================== *)

Section Claim6.
Context `{B : Backend}.

Lemma init_eq env a hurdat oisst gridsat :
  load_df_table env (arg_hurdat_table a) = Ok hurdat ->
  load_df_table env (arg_oisst_table a) = Ok oisst ->
  load_df_table env (arg_gridsat_b1_table a) = Ok gridsat ->
  init env a =
    let* samples := generate_all_ts_samples env (attributes a hurdat oisst gridsat) in
    Ok {| ds_self := attributes a hurdat oisst gridsat; generated_samples := samples |}.
Proof. intros H1 H2 H3. unfold init. rewrite H1, H2, H3. reflexivity. Qed.

Lemma column_dtype_ok (cols : list (string * dtype)) (c : string) d :
  column_dtype cols c = Ok d -> c ∈ cols.*1.
Proof.
  induction cols as [|[c' d'] cols IH]; simpl; [discriminate|].
  destruct (String.eqb c c') eqn:E.
  - apply String.eqb_eq in E as ->. intros _. apply list_elem_of_here.
  - intros H. apply list_elem_of_further. by apply IH.
Qed.

Lemma getitem_list_columns (slice : DataFrame) vars sel v :
  getitem_list slice vars = Ok sel -> v ∈ vars -> has_column v slice = true.
Proof.
  unfold getitem_list. intros H Hv.
  apply bind_ok in H as (ds & Hds & _). apply traverse_ok in Hds.
  destruct (proj1 (list_elem_of_lookup _ _) Hv) as [i Hi].
  destruct (Forall2_lookup_l _ _ _ _ _ Hds Hi) as (d & _ & Hd).
  apply column_dtype_ok in Hd. unfold has_column, columns.
  by apply bool_decide_eq_true.
Qed.

Lemma rolling_columns (window : Z) (df : DataFrame) ws w :
  rolling window df = Ok ws -> w ∈ ws -> df_columns w = df_columns df.
Proof.
  unfold rolling. destruct (window <? 0); [discriminate|]. intros [= <-] Hw.
  apply list_elem_of_fmap in Hw as (i & -> & _). reflexivity.
Qed.

Lemma window_of_columns self (table : DataFrame) w :
  hurdat_table self = Some table -> window_of self w ->
  df_columns w = df_columns table.
Proof.
  intros Ht (table' & groups & [k g] & ws & Ht' & Hg & Hgin & Hws & Hw).
  assert (table' = table) as -> by congruence.
  rewrite (rolling_columns _ _ _ _ Hws Hw). simpl.
  by destruct (groupby_elem _ _ _ _ _ Hg Hgin).
Qed.

Lemma has_column_columns (c : string) (df df' : DataFrame) :
  df_columns df' = df_columns df -> has_column c df' = has_column c df.
Proof. unfold has_column, columns. by intros ->. Qed.

Lemma all_loop_none env self groups :
  Forall (fun g : cell * DataFrame =>
            generate_storm_ts_samples env self g.2 = Ok []) groups ->
  all_loop env self groups [] = Ok [].
Proof.
  induction 1 as [|[k g] groups Hg _ IH]; simpl; [reflexivity|].
  simpl in Hg. rewrite Hg. simpl. exact IH.
Qed.

Lemma buckets_nonempty key (rows : list (gmap string cell)) r :
  r ∈ rows -> cell_at r key <> CNaN -> buckets key rows <> [].
Proof.
  intros Hr Hk Hnil.
  destruct (buckets_grouped key rows) as [_ _ Hall _].
  specialize (Hall r Hr Hk). rewrite Hnil in Hall. by apply elem_of_nil in Hall.
Qed.

Lemma bind_raise_inv {A C} (c : result A) (k : A -> result C) (e : exn) :
  bind c k = Raise e -> c = Raise e \/ exists x, c = Ok x /\ k x = Raise e.
Proof. destruct c as [x|e']; simpl; intros H; [right; eauto | left; congruence]. Qed.

Lemma traverse_raises_in {A C} (f : A -> result C) (xs : list A) (e : exn) :
  traverse f xs = Raise e -> exists x, x ∈ xs /\ f x = Raise e.
Proof.
  induction xs as [|x xs IH]; simpl; [discriminate|].
  intros [H|(y & Hy & H)]%bind_raise_inv.
  - exists x. split; [apply list_elem_of_here | exact H].
  - apply bind_raise_inv in H as [H|(ys & _ & H)]; [|discriminate].
    destruct (IH H) as (x' & Hin & Hx'). exists x'.
    split; [by apply list_elem_of_further | exact Hx'].
Qed.

Lemma window_sample_past_zero env self (w : DataFrame) :
  past_horizon self = 0 -> full_size self w = true ->
  window_sample env self w = Raise IndexError.
Proof.
  intros Hp Hfull. unfold window_sample. unfold full_size in Hfull.
  rewrite Hfull. simpl. unfold iloc_last, head. rewrite Hp. reflexivity.
Qed.

(** C6, as the code has it.  With the three tables loaded, the constructor
    runs no validation of its own: (6) it returns exactly what the sample
    generation returns, the dataset on success and the same exception on
    failure.  (1) A [grouping_var] the table lacks raises [KeyError] at the
    grouping, before any window is built.  (2) An [input_vars] or
    [target_vars] column the table lacks makes construction fail as soon as
    one window passes the size and status gates, which is its first use.
    (3) A negative [past_horizon + future_horizon] raises [ValueError] when
    the first storm group is rolled, the table having a row with a grouping
    key.  (4) With a non-negative window size, a [grouping_var] column and
    no full-size window, construction succeeds with an empty sample
    collection, whatever the sign of each horizon and whatever the variable
    lists.  (5) A [past_horizon] of 0 raises [IndexError] as soon as some
    window is full-size. *)
Theorem C6_construction_fails_at_first_use env a (table : DataFrame) oisst gridsat :
  load_df_table env (arg_hurdat_table a) = Ok (Some table) ->
  load_df_table env (arg_oisst_table a) = Ok oisst ->
  load_df_table env (arg_gridsat_b1_table a) = Ok gridsat ->
  (has_column (arg_grouping_var a) table = false ->
   init env a = Raise (KeyError (arg_grouping_var a))) /\
  (forall v w,
     v ∈ arg_input_vars a \/ v ∈ arg_target_vars a ->
     has_column v table = false ->
     window_of (attributes a (Some table) oisst gridsat) w ->
     retained (attributes a (Some table) oisst gridsat) w = true ->
     fails (init env a)) /\
  (arg_past_horizon a + arg_future_horizon a < 0 ->
   has_column (arg_grouping_var a) table = true ->
   (exists r, r ∈ df_rows table /\ cell_at r (arg_grouping_var a) <> CNaN) ->
   init env a = Raise ValueError) /\
  (0 <= arg_past_horizon a + arg_future_horizon a ->
   has_column (arg_grouping_var a) table = true ->
   (forall w, window_of (attributes a (Some table) oisst gridsat) w ->
              full_size (attributes a (Some table) oisst gridsat) w = false) ->
   init env a = Ok {| ds_self := attributes a (Some table) oisst gridsat;
                      generated_samples := [] |}) /\
  (arg_past_horizon a = 0 ->
   (exists w, window_of (attributes a (Some table) oisst gridsat) w /\
              full_size (attributes a (Some table) oisst gridsat) w = true) ->
   init env a = Raise IndexError) /\
  ((forall e,
      init env a = Raise e <->
      generate_all_ts_samples env (attributes a (Some table) oisst gridsat) = Raise e) /\
   (forall d,
      init env a = Ok d <->
      exists samples,
        generate_all_ts_samples env (attributes a (Some table) oisst gridsat)
          = Ok samples /\
        d = {| ds_self := attributes a (Some table) oisst gridsat;
               generated_samples := samples |})).
Proof.
  intros Hh Ho Hg. rewrite (init_eq _ _ _ _ _ Hh Ho Hg).
  set (self := attributes a (Some table) oisst gridsat).
  split; [|split; [|split; [|split; [|split]]]].
  - intros Hcol. unfold generate_all_ts_samples, groupby. simpl.
    by rewrite Hcol.
  - intros v w Hv Hcol Hw Hret.
    assert (Hgen : fails (generate_all_ts_samples env self)).
    { apply fails_not_ok. intros [samples Hall].
      destruct (generated_window_ok _ _ _ _ Hall Hw) as [o Ho'].
      destruct o as [s|]; [|apply window_sample_none in Ho'; congruence].
      pose proof (window_sample_some _ _ _ _ Ho') as [_ _ Hin Hout _ _].
      destruct Hin as (isel & Hisel & _), Hout as (osel & Hosel & _).
      assert (has_column v (head (past_horizon self) w) = true) as Hhas.
      { destruct Hv as [Hv|Hv];
          [eapply getitem_list_columns; [exact Hisel | exact Hv]
          |eapply getitem_list_columns; [exact Hosel | exact Hv]]. }
      rewrite (has_column_columns v w) in Hhas by reflexivity.
      rewrite (has_column_columns v table w) in Hhas
        by (by apply (window_of_columns self)).
      congruence. }
    destruct Hgen as [e He]. rewrite He. by exists e.
  - intros Hneg Hcol (r & Hr & Hk).
    unfold generate_all_ts_samples, groupby. simpl. rewrite Hcol. simpl.
    pose proof (buckets_nonempty _ _ _ Hr Hk) as Hne.
    destruct (buckets (arg_grouping_var a) (df_rows table)) as [|[k rs] bs];
      [done|].
    simpl. unfold generate_storm_ts_samples, rolling. simpl.
    destruct (arg_past_horizon a + arg_future_horizon a <? 0) eqn:E; [reflexivity|lia].
  - intros Hpos Hcol Hshort.
    assert (Hgen : generate_all_ts_samples env self = Ok []).
    { unfold generate_all_ts_samples. simpl.
      destruct (groupby (arg_grouping_var a) table) as [groups|e] eqn:Hgroups;
        [|unfold groupby in Hgroups; rewrite Hcol in Hgroups; discriminate].
      simpl. apply all_loop_none. apply Forall_forall. intros g Hgin.
      apply generate_storm_ok.
      pose (ws := map (fun i => iloc_slice
                         (i - Z.to_nat (past_horizon self + future_horizon self)) i g.2)
                      (seq 1 (length (df_rows g.2)))).
      assert (Hws : rolling (past_horizon self + future_horizon self) g.2 = Ok ws)
        by (apply rolling_ok; simpl; lia).
      destruct (traverse_all_none env self ws) as (os & Hos & Hk).
      { apply Forall_forall. intros w Hw. apply Hshort.
        by exists table, groups, g, ws. }
      exists ws, os. by rewrite Hk. }
    by rewrite Hgen.
  - intros Hp0 (w & Hw & Hfull).
    assert (Hgen : generate_all_ts_samples env self = Raise IndexError).
    { destruct (generate_all_ts_samples env self) as [samples|e] eqn:Hall.
      - destruct (generated_window_ok _ _ _ _ Hall Hw) as [o Ho'].
        rewrite (window_sample_past_zero env self w) in Ho' by assumption.
        discriminate.
      - f_equal. unfold generate_all_ts_samples in Hall. simpl in Hall.
        apply bind_raise_inv in Hall as [Hall|(groups & _ & Hall)].
        { destruct Hw as (table' & groups & _ & _ & [= <-] & Hgr & _).
          simpl in Hgr. congruence. }
        rewrite all_loop_eq in Hall.
        apply bind_raise_inv in Hall as [Hall|(? & _ & ?)]; [|discriminate].
        apply traverse_raises_in in Hall as (g & _ & Hstorm).
        unfold generate_storm_ts_samples in Hstorm.
        apply bind_raise_inv in Hstorm as [Hroll|(ws & _ & Hloop)].
        { unfold full_size, nrows in Hfull. apply Z.eqb_eq in Hfull.
          rewrite rolling_ok in Hroll by lia. discriminate. }
        rewrite storm_loop_eq in Hloop.
        apply bind_raise_inv in Hloop as [Hloop|(? & _ & ?)]; [|discriminate].
        apply traverse_raises_in in Hloop as (w' & _ & Hw').
        destruct (full_size self w') eqn:Hfull'.
        + rewrite (window_sample_past_zero env self w') in Hw' by assumption.
          congruence.
        + rewrite (window_sample_short env self w') in Hw' by assumption.
          discriminate. }
    by rewrite Hgen.
  - split.
    + intros e. destruct (generate_all_ts_samples env self) as [samples|e'];
        simpl; split; congruence.
    + intros d. destruct (generate_all_ts_samples env self) as [samples|e'];
        simpl; split.
      * intros [= <-]. by exists samples.
      * intros (samples' & [= <-] & ->). reflexivity.
      * discriminate.
      * intros (samples' & Hs & _). discriminate.
Qed.

End Claim6.

Lemma ex_window_of_missing :
  window_of (attributes ex_args_missing_used (Some ex_table) None None) ex_window.
Proof.
  exists ex_table, ex_groups, (CStr "AL01", ex_storm), ex_storm_windows.
  split; [reflexivity|]. split; [vm_compute; reflexivity|].
  split; [apply list_elem_of_here|]. split; [vm_compute; reflexivity|].
  apply list_elem_of_further, list_elem_of_here.
Defined.

Lemma ex_window_of_past_zero :
  window_of (attributes ex_args_past_zero (Some ex_table) None None)
            (iloc_slice 0 1 ex_storm).
Proof.
  exists ex_table, ex_groups, (CStr "AL01", ex_storm),
    [iloc_slice 0 1 ex_storm; iloc_slice 1 2 ex_storm; iloc_slice 2 3 ex_storm].
  split; [reflexivity|]. split; [vm_compute; reflexivity|].
  split; [apply list_elem_of_here|]. split; [vm_compute; reflexivity|].
  apply list_elem_of_here.
Defined.

Lemma C6_witness :
  init ex_env ex_args_nogroup = Raise (KeyError "storm_name") /\
  fails (init ex_env ex_args_missing_used) /\
  init ex_env ex_args_negative = Raise ValueError /\
  init ex_env ex_args_missing =
    Ok {| ds_self := attributes ex_args_missing (Some ex_table) None None;
          generated_samples := [] |} /\
  init ex_env ex_args_past_zero = Raise IndexError /\
  ((forall e,
      init ex_env ex_args_zero = Raise e <->
      generate_all_ts_samples ex_env (attributes ex_args_zero (Some ex_table) None None)
        = Raise e) /\
   (forall d,
      init ex_env ex_args_zero = Ok d <->
      exists samples,
        generate_all_ts_samples ex_env
          (attributes ex_args_zero (Some ex_table) None None) = Ok samples /\
        d = {| ds_self := attributes ex_args_zero (Some ex_table) None None;
               generated_samples := samples |})).
Proof.
  split; [|split; [|split; [|split; [|split]]]].
  - apply (proj1 (C6_construction_fails_at_first_use ex_env ex_args_nogroup
                    ex_table None None eq_refl eq_refl eq_refl)).
    reflexivity.
  - apply (proj1 (proj2 (C6_construction_fails_at_first_use ex_env ex_args_missing_used
                    ex_table None None eq_refl eq_refl eq_refl))
             "max_sus_wind"%string ex_window).
    + left. apply list_elem_of_here.
    + reflexivity.
    + exact ex_window_of_missing.
    + vm_compute. reflexivity.
  - apply (proj1 (proj2 (proj2 (C6_construction_fails_at_first_use ex_env ex_args_negative
                    ex_table None None eq_refl eq_refl eq_refl)))).
    + simpl. lia.
    + reflexivity.
    + exists (ex_row "AL01" 2020 9 10 0 "HU" 1 2).
      split; [apply list_elem_of_here | vm_compute; discriminate].
  - apply (proj1 (proj2 (proj2 (proj2
             (C6_construction_fails_at_first_use ex_env ex_args_missing
                ex_table None None eq_refl eq_refl eq_refl))))).
    + simpl. lia.
    + reflexivity.
    + intros w (table & groups & g & ws & Ht & Hg & Hgin & Hws & Hw).
      injection Ht as <-. vm_compute in Hg. injection Hg as <-.
      apply elem_of_cons in Hgin as [->|Hgin];
        [|apply list_elem_of_singleton in Hgin as ->];
        vm_compute in Hws; injection Hws as <-;
        repeat (apply elem_of_cons in Hw as [->|Hw]; [vm_compute; reflexivity|]);
        by apply elem_of_nil in Hw.
  - apply (proj1 (proj2 (proj2 (proj2 (proj2
             (C6_construction_fails_at_first_use ex_env ex_args_past_zero
                ex_table None None eq_refl eq_refl eq_refl)))))).
    + reflexivity.
    + exists (iloc_slice 0 1 ex_storm).
      split; [exact ex_window_of_past_zero | vm_compute; reflexivity].
  - exact (proj2 (proj2 (proj2 (proj2 (proj2
             (C6_construction_fails_at_first_use ex_env ex_args_zero
                ex_table None None eq_refl eq_refl eq_refl)))))).
Defined.

(** C6 as the spec words it does not hold: a non-positive [future_horizon]
    is accepted (two samples are built), and so is an input variable that
    the table lacks when no window is ever retained. *)
Lemma C6_counterexample :
  (arg_future_horizon ex_args_zero <= 0 /\
   exists d, init ex_env ex_args_zero = Ok d /\ len d = 2) /\
  (In "max_sus_wind"%string (arg_input_vars ex_args_missing) /\
   has_column "max_sus_wind" ex_table = false /\
   exists d, init ex_env ex_args_missing = Ok d).
Proof.
  split.
  - split; [simpl; lia|]. eexists. split; [vm_compute; reflexivity | reflexivity].
  - split; [by left|]. split; [reflexivity|].
    eexists. vm_compute. reflexivity.
Qed.

(* ===================================================================== *)
(** ** C10: the output timestamps are the input timestamps *)
(* ===================================================================== *)

Section Claim10.
Context `{B : Backend}.

Lemma strftime_full_of_new (x : cell * cell * cell * cell) (dt : datetime) :
  datetime_new x = Ok dt ->
  exists y m d h,
    x = (CInt y, CInt m, CInt d, CInt h) /\
    strftime_full dt =
      (zdigits 4 y +:+ "-" +:+ zdigits 2 m +:+ "-" +:+ zdigits 2 d)
      +:+ " " +:+ zdigits 2 h +:+ ":00:00".
Proof.
  intros H. destruct (datetime_new_fields _ _ H) as (-> & Hmin & Hsec).
  exists (dt_year dt), (dt_month dt), (dt_day dt), (dt_hour dt).
  split; [reflexivity|]. unfold strftime_full, strftime_date.
  rewrite Hmin, Hsec. reflexivity.
Qed.

(** C10. In every generated sample [output_dt] equals [input_dt] element by
    element.  Both lists have one string per row of the leading
    [past_horizon]-row slice of the window, built from that row's year,
    month, day and hour as "YYYY-MM-DD HH:00:00" (19 characters, the format
    "%Y-%m-%d %H:%M:%S" with the minutes and seconds the constructor leaves
    at zero). *)
Theorem C10_output_dt_equals_input_dt env self samples s :
  generate_all_ts_samples env self = Ok samples -> s ∈ samples ->
  output_dt s = input_dt s /\
  exists w,
    window_of self w /\
    Forall2 (fun r str =>
               exists y m d h,
                 cell_at r "year" = CInt y /\ cell_at r "month" = CInt m /\
                 cell_at r "day" = CInt d /\ cell_at r "hour" = CInt h /\
                 str = (zdigits 4 y +:+ "-" +:+ zdigits 2 m +:+ "-" +:+ zdigits 2 d)
                       +:+ " " +:+ zdigits 2 h +:+ ":00:00" /\
                 String.length str = 19%nat)
            (df_rows (head (past_horizon self) w)) (input_dt s).
Proof.
  intros Hall Hs.
  destruct (generated_sample_origin _ _ _ _ Hall Hs)
    as (table & groups & g & ws & w & Ht & Hg & Hgin & Hws & Hw & Hsample).
  pose proof (window_sample_some _ _ _ _ Hsample)
    as [_ _ _ _ (dts & Hdts & Hin & Hout & _) _].
  split; [congruence|].
  exists w. split; [by exists table, groups, g, ws|].
  rewrite Hin. apply slice_datetimes_ok in Hdts. clear Hin Hout Hsample.
  revert Hdts. generalize (df_rows (head (past_horizon self) w)). intros rows Hdts.
  induction Hdts as [|r dt rows dts Hdt _ IH]; cbn [map]; constructor; [|exact IH].
  destruct (strftime_full_of_new _ _ Hdt) as (y & m & d & h & [= -> -> -> ->] & Hstr).
  exists y, m, d, h. repeat (split; [reflexivity|]). split; [exact Hstr|].
  rewrite Hstr. rewrite !string_length_app, !zdigits_length. reflexivity.
Qed.

End Claim10.

Lemma C10_witness :
  generate_all_ts_samples ex_env ex_self = Ok [ex_sample; ex_sample2] /\
  ex_sample2 ∈ [ex_sample; ex_sample2] /\
  output_dt ex_sample2 = input_dt ex_sample2 /\
  exists w,
    window_of ex_self w /\
    Forall2 (fun r str =>
               exists y m d h,
                 cell_at r "year" = CInt y /\ cell_at r "month" = CInt m /\
                 cell_at r "day" = CInt d /\ cell_at r "hour" = CInt h /\
                 str = (zdigits 4 y +:+ "-" +:+ zdigits 2 m +:+ "-" +:+ zdigits 2 d)
                       +:+ " " +:+ zdigits 2 h +:+ ":00:00" /\
                 String.length str = 19%nat)
            (df_rows (head (past_horizon ex_self) w)) (input_dt ex_sample2).
Proof.
  assert (H1 : generate_all_ts_samples ex_env ex_self = Ok [ex_sample; ex_sample2])
    by (vm_compute; reflexivity).
  assert (H2 : ex_sample2 ∈ [ex_sample; ex_sample2])
    by (apply list_elem_of_further, list_elem_of_here).
  split; [exact H1|]. split; [exact H2|].
  exact (C10_output_dt_equals_input_dt ex_env ex_self _ ex_sample2 H1 H2).
Defined.

(* ===================================================================== *)
(** ** C9: the shape of the stacked rasters *)
(* ===================================================================== *)

Section Claim9.
Context `{B : Backend}.

(** A raw raster (H0, W0, C) that survives the preparation comes out as
    (C, 64, 128): channel axis first, cast to float, then resized. *)
Lemma prepare_raster_shape (raw frame : ndarray) (h0 w0 c : nat) :
  nd_shape raw = [h0; w0; c] -> prepare_raster raw = Ok frame ->
  nd_shape frame = [c; 64; 128]%nat /\
  nd_buf frame =
    buf_resize [c; h0; w0] 64 128 (buf_to_float (buf_moveaxis [h0; w0; c] (nd_buf raw))).
Proof.
  intros Hsh. unfold prepare_raster, moveaxis_last_first, resize, torch_tensor.
  rewrite Hsh. simpl.
  destruct (_ && _); [|discriminate]. intros [= <-]. by simpl.
Qed.

Lemma load_raster_ok env fp raw :
  load_raster env fp = Ok raw -> exists path, fp = CStr path /\ np_load env path = Ok raw.
Proof. destruct fp; simpl; try discriminate. intros H. by eexists. Qed.

Lemma slice_datetimes_length (slice : DataFrame) dts :
  slice_datetimes slice = Ok dts -> length dts = length (df_rows slice).
Proof. intros H%slice_datetimes_ok. symmetry. exact (Forall2_length _ _ _ H). Qed.

(** C9. Let every raster file hold an array of shape (H0, W0, C) for one
    channel count C, and let the horizons be non-negative.  Then every
    generated sample of a dataset with a raster index carries
    [input_oisst] of shape (past_horizon, C, 64, 128); it has one frame per
    input timestep, in timestep order, and the frame of a timestep is the
    file of the day before, with the channel axis moved first, cast to float
    and resized to 64 x 128. *)
Theorem C9_input_raster_shape env self (table : DataFrame) (c : nat) samples s :
  oisst_table self = Some table ->
  0 <= past_horizon self -> 0 <= future_horizon self ->
  (forall path raw, np_load env path = Ok raw ->
                    exists h0 w0, nd_shape raw = [h0; w0; c]) ->
  generate_all_ts_samples env self = Ok samples -> s ∈ samples ->
  exists st w dts,
    input_oisst s = Some st /\
    st_shape st = [Z.to_nat (past_horizon self); c; 64; 128]%nat /\
    length (st_frames st) = Z.to_nat (past_horizon self) /\
    window_of self w /\
    slice_datetimes (head (past_horizon self) w) = Ok dts /\
    Forall2 (fun dt buf =>
               exists key path raw h0 w0,
                 day_before_key dt key /\
                 unique_index_entry table key (CStr path) /\
                 np_load env path = Ok raw /\ nd_shape raw = [h0; w0; c] /\
                 buf = buf_resize [c; h0; w0] 64 128
                         (buf_to_float (buf_moveaxis [h0; w0; c] (nd_buf raw))))
            dts (st_frames st).
Proof.
  intros Htable Hp Hf Hfiles Hall Hs.
  destruct (generated_sample_origin _ _ _ _ Hall Hs)
    as (tbl & groups & g & ws & w & Ht & Hg & Hgin & Hws & Hw & Hsample).
  pose proof (window_sample_some _ _ _ _ Hsample)
    as [Hfull _ _ _ (dts & Hdts & _ & _ & Hatt) _].
  destruct (attach_oisst_some _ _ _ _ _ Htable Hatt)
    as (frames & st & Hst & Hfr & Hstack).
  pose proof (slice_datetimes_valid _ _ Hdts) as Hvalid.
  assert (Hlen : length dts = Z.to_nat (past_horizon self)).
  { rewrite (slice_datetimes_length _ _ Hdts), head_rows_nonneg by exact Hp.
    rewrite length_take. unfold nrows in Hfull. lia. }
  assert (Hframes : Forall2 (fun dt frame =>
            nd_shape frame = [c; 64; 128]%nat /\
            exists key path raw h0 w0,
              day_before_key dt key /\
              unique_index_entry table key (CStr path) /\
              np_load env path = Ok raw /\ nd_shape raw = [h0; w0; c] /\
              nd_buf frame = buf_resize [c; h0; w0] 64 128
                      (buf_to_float (buf_moveaxis [h0; w0; c] (nd_buf raw))))
            dts frames).
  { clear Hlen Hdts Hatt Hstack.
    induction Hfr as [|dt frame dts frames Hframe _ IH]; [constructor|].
    inversion Hvalid as [|? ? Hv Hvs]; subst. constructor; [|by apply IH].
    destruct (oisst_frame_ok _ _ _ _ Hv Hframe) as (key & fp & raw & Hk & Hu & Hl & Hprep).
    apply load_raster_ok in Hl as (path & -> & Hload).
    destruct (Hfiles _ _ Hload) as (h0 & w0 & Hsh).
    destruct (prepare_raster_shape _ _ _ _ _ Hsh Hprep) as [Hshape Hbuf].
    split; [exact Hshape|]. by exists key, path, raw, h0, w0. }
  apply stack_ok in Hstack as (Hne & Hbufs & Hshape).
  exists st, w, dts.
  split; [by rewrite Hst|].
  assert (Hflen : length frames = Z.to_nat (past_horizon self))
    by (rewrite <- (Forall2_length _ _ _ Hframes); exact Hlen).
  split.
  { destruct frames as [|frame frames]; [done|].
    rewrite (Hshape frame) by apply list_elem_of_here.
    inversion Hframes as [|? ? ? ? [Hsh _] _]; subst. by rewrite Hsh, Hflen. }
  split; [by rewrite Hbufs, length_map|].
  split; [by exists tbl, groups, g, ws|]. split; [exact Hdts|].
  rewrite Hbufs. clear -Hframes.
  induction Hframes as [|dt frame dts frames [_ Hd] _ IH]; cbn [map]; constructor;
    [|exact IH].
  destruct Hd as (key & path & raw & h0 & w0 & H1 & H2 & H3 & H4 & H5).
  by exists key, path, raw, h0, w0.
Qed.

End Claim9.

Lemma C9_witness :
  exists st w dts,
    input_oisst ex_sample = Some st /\
    st_shape st = [Z.to_nat (past_horizon ex_self); 2; 64; 128]%nat /\
    length (st_frames st) = Z.to_nat (past_horizon ex_self) /\
    window_of ex_self w /\
    slice_datetimes (head (past_horizon ex_self) w) = Ok dts /\
    Forall2 (fun dt buf =>
               exists key path raw h0 w0,
                 day_before_key dt key /\
                 unique_index_entry ex_index key (CStr path) /\
                 np_load ex_env path = Ok raw /\ nd_shape raw = [h0; w0; 2%nat] /\
                 buf = buf_resize [2%nat; h0; w0] 64 128
                         (buf_to_float (buf_moveaxis [h0; w0; 2%nat] (nd_buf raw))))
            dts (st_frames st).
Proof.
  apply (C9_input_raster_shape ex_env ex_self ex_index 2 [ex_sample; ex_sample2]).
  - reflexivity.
  - simpl. lia.
  - simpl. lia.
  - intros path raw [= <-]. by exists 3%nat, 4%nat.
  - vm_compute. reflexivity.
  - apply list_elem_of_here.
Defined.

(* ===================================================================== *)
(** ** C8: the collection is a function of the inputs *)
(* ===================================================================== *)

Section Claim8.
Context `{B : Backend}.

Ltac same_bind :=
  match goal with
  | |- bind ?c _ = bind ?c _ => destruct c; simpl; [|reflexivity]
  | |- (if ?b then _ else _) = (if ?b then _ else _) => destruct b; simpl; [reflexivity|]
  end.

Lemma oisst_frame_same env1 env2 (table : DataFrame) dt :
  same_rasters env1 env2 (Some table) ->
  oisst_frame env1 table dt = oisst_frame env2 table dt.
Proof.
  intros Hsame. unfold oisst_frame.
  destruct (sub_one_day dt) as [lag|e]; simpl; [|reflexivity].
  destruct (oisst_path table (strftime_date lag)) as [fp|e] eqn:Hfp; simpl;
    [|reflexivity].
  apply oisst_path_ok in Hfp as (_ & _ & r & Hr & ->).
  assert (Hin : r ∈ df_rows table).
  { assert (r ∈ filter (fun r0 => cell_at r0 "datetime" = CStr (strftime_date lag))
                       (df_rows table)) as Hf by (rewrite Hr; apply list_elem_of_here).
    by apply list_elem_of_filter in Hf as [_ ?]. }
  destruct (cell_at r "processed_file_path") as [| |path|] eqn:Hcell; simpl;
    try reflexivity.
  by rewrite (Hsame table r path eq_refl Hin Hcell).
Qed.

Lemma attach_oisst_same env1 env2 self dts :
  same_rasters env1 env2 (oisst_table self) ->
  attach_oisst env1 self dts = attach_oisst env2 self dts.
Proof.
  intros Hsame. unfold attach_oisst.
  destruct (oisst_table self) as [table|]; [|reflexivity].
  rewrite (traverse_ext_in (oisst_frame env1 table) (oisst_frame env2 table));
    [reflexivity|].
  intros dt _. by apply oisst_frame_same.
Qed.

Lemma window_sample_same env1 env2 self w :
  same_rasters env1 env2 (oisst_table self) ->
  window_sample env1 self w = window_sample env2 self w.
Proof.
  intros Hsame. unfold window_sample.
  repeat same_bind.
  by rewrite (attach_oisst_same env1 env2).
Qed.

Lemma generate_storm_same env1 env2 self storm_df :
  same_rasters env1 env2 (oisst_table self) ->
  generate_storm_ts_samples env1 self storm_df
  = generate_storm_ts_samples env2 self storm_df.
Proof.
  intros Hsame. unfold generate_storm_ts_samples.
  destruct (rolling _ storm_df) as [ws|e]; simpl; [|reflexivity].
  rewrite !storm_loop_eq.
  rewrite (traverse_ext_in (window_sample env1 self) (window_sample env2 self));
    [reflexivity|].
  intros w _. by apply window_sample_same.
Qed.

Lemma generate_all_same env1 env2 self :
  same_rasters env1 env2 (oisst_table self) ->
  generate_all_ts_samples env1 self = generate_all_ts_samples env2 self.
Proof.
  intros Hsame. unfold generate_all_ts_samples.
  destruct (hurdat_table self) as [table|]; [|reflexivity].
  destruct (groupby _ table) as [groups|e]; simpl; [|reflexivity].
  rewrite !all_loop_eq.
  rewrite (traverse_ext_in
             (fun g => generate_storm_ts_samples env1 self g.2)
             (fun g => generate_storm_ts_samples env2 self g.2));
    [reflexivity|].
  intros g _. by apply generate_storm_same.
Qed.

(** C8. Two runs of the constructor on the same arguments return the same
    result (the same exception, or the same attributes and the same sample
    collection: same length, order and values) as soon as the two runs read
    the same three tables and the same contents for every raster file the
    raster index lists.  Nothing else of the environment is consulted. *)
Theorem C8_generation_is_deterministic env1 env2 a oisst :
  load_df_table env1 (arg_hurdat_table a) = load_df_table env2 (arg_hurdat_table a) ->
  load_df_table env1 (arg_oisst_table a) = Ok oisst ->
  load_df_table env2 (arg_oisst_table a) = Ok oisst ->
  load_df_table env1 (arg_gridsat_b1_table a)
    = load_df_table env2 (arg_gridsat_b1_table a) ->
  same_rasters env1 env2 oisst ->
  init env1 a = init env2 a /\
  forall d1 d2,
    init env1 a = Ok d1 -> init env2 a = Ok d2 ->
    len d1 = len d2 /\
    forall idx, getitem_sample d1 idx = getitem_sample d2 idx.
Proof.
  intros Hh Ho1 Ho2 Hg Hsame.
  assert (Heq : init env1 a = init env2 a).
  { unfold init. rewrite Hh, Ho1, Ho2, Hg.
    destruct (load_df_table env2 (arg_hurdat_table a)) as [hurdat|e]; simpl;
      [|reflexivity].
    destruct (load_df_table env2 (arg_gridsat_b1_table a)) as [gridsat|e]; simpl;
      [|reflexivity].
    by rewrite (generate_all_same env1 env2). }
  split; [exact Heq|].
  intros d1 d2 H1 H2. rewrite Heq in H1.
  assert (d1 = d2) as -> by congruence. by split.
Qed.

End Claim8.

Lemma C8_witness :
  init ex_env ex_args = init ex_env2 ex_args /\
  forall d1 d2,
    init ex_env ex_args = Ok d1 -> init ex_env2 ex_args = Ok d2 ->
    len d1 = len d2 /\
    forall idx, getitem_sample d1 idx = getitem_sample d2 idx.
Proof.
  apply (C8_generation_is_deterministic ex_env ex_env2 ex_args (Some ex_index));
    try reflexivity.
  intros table r path [= <-] Hr Hpath.
  apply list_elem_of_singleton in Hr as ->.
  vm_compute in Hpath. injection Hpath as <-. reflexivity.
Defined.

(* ===================================================================== *)
(** ** Further properties: the table arguments of the constructor *)
(* ===================================================================== *)

Section TableArguments.
Context `{B : Backend}.

(** X1. [load_df_table] and the constructor.  (1) A track table given by a
    path that [pd.read_csv] cannot read makes the constructor raise the
    reader's exception, whatever the other arguments.  (2) A track table
    that is neither a DataFrame nor a string is loaded as [None], and the
    constructor then raises [AttributeError] at [groupby] once the two
    other tables have loaded.  (3) A track table given by a readable path
    constructs exactly what the table itself, passed as a DataFrame,
    constructs. *)
Theorem X1_track_table_argument env a :
  (forall path e,
     arg_hurdat_table a = ArgPath path -> read_csv env path = Raise e ->
     init env a = Raise e) /\
  (arg_hurdat_table a = ArgOther ->
   is_ok (load_df_table env (arg_oisst_table a)) ->
   is_ok (load_df_table env (arg_gridsat_b1_table a)) ->
   init env a = Raise AttributeError) /\
  (forall path df,
     arg_hurdat_table a = ArgPath path -> read_csv env path = Ok df ->
     init env a = init env (with_hurdat a (ArgFrame df))).
Proof.
  split; [|split].
  - intros path e Ha He. unfold init. rewrite Ha. simpl. by rewrite He.
  - intros Ha [o Ho] [g Hg]. unfold init. rewrite Ha, Ho, Hg. reflexivity.
  - intros path df Ha Hdf. unfold init. rewrite Ha. simpl. rewrite Hdf. reflexivity.
Qed.

End TableArguments.

Lemma X1_witness :
  init ex_env_csv ex_args_badpath = Raise OSError /\
  init ex_env_csv ex_args_none = Raise AttributeError /\
  init ex_env_csv ex_args_path
    = init ex_env_csv (with_hurdat ex_args_path (ArgFrame ex_table)).
Proof.
  split; [|split].
  - apply (proj1 (X1_track_table_argument ex_env_csv ex_args_badpath)
             "missing.csv"%string); reflexivity.
  - apply (proj1 (proj2 (X1_track_table_argument ex_env_csv ex_args_none)));
      [reflexivity | eexists; reflexivity | eexists; reflexivity].
  - apply (proj2 (proj2 (X1_track_table_argument ex_env_csv ex_args_path))
             "hurdat2_processed.csv"%string); reflexivity.
Defined.

(* ===================================================================== *)
(** ** Further properties: attributes the generation never reads *)
(* ===================================================================== *)

Section UnusedAttributes.
Context `{B : Backend}.

Ltac same_head :=
  match goal with
  | |- bind ?c _ = bind ?c _ => destruct c; simpl; [|reflexivity]
  | |- (if ?b then _ else _) = (if ?b then _ else _) => destruct b; simpl; [reflexivity|]
  end.

Lemma window_sample_fields env s1 s2 w :
  same_generation_fields s1 s2 ->
  window_sample env s1 w = window_sample env s2 w.
Proof.
  intros (Hh & Ho & Hi & Ht & Hp & Hf & Hg).
  unfold window_sample, attach_oisst. by rewrite Ho, Hi, Ht, Hp, Hf.
Qed.

Lemma generate_all_fields env s1 s2 :
  same_generation_fields s1 s2 ->
  generate_all_ts_samples env s1 = generate_all_ts_samples env s2.
Proof.
  intros Hsame. pose proof Hsame as (Hh & Ho & Hi & Ht & Hp & Hf & Hg).
  unfold generate_all_ts_samples. rewrite Hh, Hg.
  destruct (hurdat_table s2) as [table|]; [|reflexivity].
  destruct (groupby _ table) as [groups|e]; simpl; [|reflexivity].
  rewrite !all_loop_eq.
  rewrite (traverse_ext_in
             (fun g => generate_storm_ts_samples env s1 g.2)
             (fun g => generate_storm_ts_samples env s2 g.2)); [reflexivity|].
  intros g _. unfold generate_storm_ts_samples. rewrite Hp, Hf.
  destruct (rolling _ g.2) as [ws|e]; simpl; [|reflexivity].
  rewrite !storm_loop_eq.
  rewrite (traverse_ext_in (window_sample env s1) (window_sample env s2));
    [reflexivity|].
  intros w _. by apply window_sample_fields.
Qed.

(** X2. The attributes [time_idx] and [gridsat_b1_table] are stored and
    never read: two objects that agree on the track table, the raster
    index, the variable lists, the horizons and the grouping variable
    generate the same samples or raise the same exception. *)
Theorem X2_time_idx_and_gridsat_are_ignored env s1 s2 :
  same_generation_fields s1 s2 ->
  generate_all_ts_samples env s1 = generate_all_ts_samples env s2.
Proof. apply generate_all_fields. Qed.

(** X9. The key "input_oisst" follows the raster index: every generated
    sample has it exactly when the object has a raster index.  Without an
    index no raster file is read, so the file system has no influence on
    the result. *)
Theorem X9_rasters_follow_the_index env self samples :
  generate_all_ts_samples env self = Ok samples ->
  Forall (fun s => is_Some (input_oisst s) <-> is_Some (oisst_table self)) samples /\
  (oisst_table self = None ->
   forall env', generate_all_ts_samples env' self = Ok samples).
Proof.
  intros Hall. split.
  - apply Forall_forall. intros s Hs.
    destruct (generated_sample_origin _ _ _ _ Hall Hs)
      as (table & groups & g & ws & w & _ & _ & _ & _ & _ & Hsample).
    pose proof (window_sample_some _ _ _ _ Hsample)
      as [_ _ _ _ (dts & _ & _ & _ & Hatt) _].
    unfold attach_oisst in Hatt.
    destruct (oisst_table self) as [index|].
    + apply bind_ok in Hatt as (frames & _ & Hatt).
      apply bind_ok in Hatt as (st & _ & [= <-]). split; eauto.
    + injection Hatt as <-. split; intros [? ?]; discriminate.
  - intros Hnone env'. rewrite <- Hall. apply generate_all_same.
    intros table r path Htable. congruence.
Qed.

End UnusedAttributes.

Lemma X2_witness :
  same_generation_fields ex_self ex_self_other /\
  generate_all_ts_samples ex_env ex_self = generate_all_ts_samples ex_env ex_self_other.
Proof.
  assert (H : same_generation_fields ex_self ex_self_other)
    by (repeat split; reflexivity).
  split; [exact H|].
  exact (X2_time_idx_and_gridsat_are_ignored ex_env ex_self ex_self_other H).
Defined.

Lemma X9_witness :
  Forall (fun s => is_Some (input_oisst s) <-> is_Some (oisst_table ex_self_plain))
         [ex_sample_plain; ex_sample_plain2] /\
  (oisst_table ex_self_plain = None ->
   forall env',
     generate_all_ts_samples env' ex_self_plain
     = Ok [ex_sample_plain; ex_sample_plain2]).
Proof.
  apply (X9_rasters_follow_the_index ex_env ex_self_plain
           [ex_sample_plain; ex_sample_plain2]).
  vm_compute. reflexivity.
Defined.

(* ===================================================================== *)
(** ** Further properties: indexing and counting the samples *)
(* ===================================================================== *)

Section Access.
Context `{B : Backend}.

(** X4. [__getitem__] and [__len__].  A position [0 <= idx < len] returns
    the sample generated at that position, unchanged, and so does the
    negative position [idx - len]; a position at or beyond [len], or below
    [-len], raises [IndexError]. *)
Theorem X4_getitem_bounds (d : Dataset) (idx : Z) :
  (0 <= idx < len d ->
   exists s, generated_samples d !! Z.to_nat idx = Some s /\
             getitem_sample d idx = Ok s /\
             getitem_sample d (idx - len d) = Ok s) /\
  (len d <= idx \/ idx < - len d -> getitem_sample d idx = Raise IndexError).
Proof.
  split.
  - intros Hidx.
    destruct (lookup_lt_is_Some_2 (generated_samples d) (Z.to_nat idx)) as [s Hs];
      [unfold len in Hidx; lia|].
    exists s. split; [exact Hs|]. unfold getitem_sample. split.
    + destruct (idx <? 0) eqn:E; [lia|].
      replace ((0 <=? idx) && (idx <? len d)) with true
        by (symmetry; apply andb_true_iff; split; [apply Z.leb_le | apply Z.ltb_lt]; lia).
      by rewrite Hs.
    + destruct (idx - len d <? 0) eqn:E; [|lia].
      replace (idx - len d + len d) with idx by lia.
      replace ((0 <=? idx) && (idx <? len d)) with true
        by (symmetry; apply andb_true_iff; split; [apply Z.leb_le | apply Z.ltb_lt]; lia).
      by rewrite Hs.
  - intros Hout. unfold getitem_sample.
    assert (0 <= len d) by (unfold len; lia).
    destruct (idx <? 0) eqn:E.
    + destruct Hout as [?|Hlow]; [lia|].
      replace (0 <=? idx + len d) with false by (symmetry; apply Z.leb_gt; lia).
      reflexivity.
    + destruct Hout as [Hhigh|?]; [|lia].
      replace (idx <? len d) with false by (symmetry; apply Z.ltb_ge; lia).
      by rewrite andb_false_r.
Qed.

Lemma retained_full self (w : DataFrame) :
  retained self w = true -> full_size self w = true.
Proof. unfold retained. by intros [? _]%andb_true_iff. Qed.

Lemma filter_length_le {A} (f g : A -> bool) (l : list A) :
  (forall x, f x = true -> g x = true) ->
  (length (List.filter f l) <= length (List.filter g l))%nat.
Proof.
  intros Hfg. induction l as [|x l IH]; simpl; [lia|].
  destruct (f x) eqn:Hf.
  - rewrite (Hfg x Hf). simpl. lia.
  - destruct (g x); simpl; lia.
Qed.

Lemma generate_storm_count env self (storm_df : DataFrame) data :
  0 < past_horizon self + future_horizon self ->
  generate_storm_ts_samples env self storm_df = Ok data ->
  (length data
   <= length (df_rows storm_df) + 1
      - Z.to_nat (past_horizon self + future_horizon self))%nat.
Proof.
  intros HW Hgen.
  apply generate_storm_ok in Hgen as (ws & os & Hws & Hos & ->).
  apply traverse_ok in Hos.
  rewrite <- (Forall2_length _ _ _ (kept_of_retained _ _ _ _ Hos)).
  etransitivity; [apply (filter_length_le _ (full_size self)), retained_full|].
  rewrite (full_windows self storm_df ws HW Hws).
  by rewrite length_map, length_seq.
Qed.

Lemma bucket_add_total k r bs : rows_total (bucket_add k r bs) = S (rows_total bs).
Proof.
  unfold rows_total. induction bs as [|[k' rs] bs IH]; simpl; [reflexivity|].
  destruct (decide (k = k')); simpl.
  - rewrite length_app. simpl. lia.
  - rewrite IH. lia.
Qed.

Lemma buckets_total key rows :
  rows_total (buckets key rows) = length (keyed_rows key rows).
Proof.
  unfold buckets, keyed_rows. induction rows as [|r rows IH] using rev_ind;
    [reflexivity|].
  rewrite foldl_snoc, filter_app, length_app, <- IH. unfold bucket_step at 1.
  destruct (cell_at r key) eqn:Hk;
    try (rewrite bucket_add_total, filter_cons_True by congruence; simpl; lia).
  rewrite filter_cons_False by (intros H; by apply H). simpl. lia.
Qed.

Lemma keyed_rows_length key (rows : list (gmap string cell)) :
  (length (keyed_rows key rows) <= length rows)%nat.
Proof. unfold keyed_rows. apply length_filter. Qed.

Lemma init_ok env a d :
  init env a = Ok d ->
  generate_all_ts_samples env (ds_self d) = Ok (generated_samples d) /\
  load_df_table env (arg_hurdat_table a) = Ok (hurdat_table (ds_self d)) /\
  past_horizon (ds_self d) = arg_past_horizon a /\
  future_horizon (ds_self d) = arg_future_horizon a.
Proof.
  unfold init. intros H.
  apply bind_ok in H as (h & Hh & H). apply bind_ok in H as (o & Ho & H).
  apply bind_ok in H as (g & Hg & H). apply bind_ok in H as (samples & Hs & [= <-]).
  by simpl.
Qed.

(** X3. How many samples there can be.  For a positive window size
    [past_horizon + future_horizon], a storm of n rows yields at most
    n + 1 - size samples, and the samples of the whole table number at most
    the rows that carry a grouping key, hence at most the rows of the
    table; so [__len__] of a constructed dataset never exceeds the number
    of rows of its track table. *)
Theorem X3_sample_count_bounds env self :
  0 < past_horizon self + future_horizon self ->
  (forall (storm_df : DataFrame) data,
     generate_storm_ts_samples env self storm_df = Ok data ->
     (length data
      <= length (df_rows storm_df) + 1
         - Z.to_nat (past_horizon self + future_horizon self))%nat) /\
  (forall (table : DataFrame) samples,
     hurdat_table self = Some table ->
     generate_all_ts_samples env self = Ok samples ->
     (length samples <= length (keyed_rows (grouping_var self) (df_rows table)))%nat /\
     (length samples <= length (df_rows table))%nat) /\
  (forall a d (table : DataFrame),
     init env a = Ok d -> ds_self d = self -> hurdat_table self = Some table ->
     len d <= nrows table).
Proof.
  intros HW.
  assert (Hstorm : forall (storm_df : DataFrame) data,
     generate_storm_ts_samples env self storm_df = Ok data ->
     (length data
      <= length (df_rows storm_df) + 1
         - Z.to_nat (past_horizon self + future_horizon self))%nat)
    by (intros; by apply (generate_storm_count env)).
  assert (Hall : forall (table : DataFrame) samples,
     hurdat_table self = Some table ->
     generate_all_ts_samples env self = Ok samples ->
     (length samples <= length (keyed_rows (grouping_var self) (df_rows table)))%nat).
  { intros table samples Ht Hgen.
    apply generate_all_ok in Hgen as (table' & groups & ss & Ht' & Hg & Hss & ->).
    assert (table' = table) as -> by congruence.
    rewrite <- buckets_total. apply groupby_ok in Hg as (_ & ->).
    unfold rows_total. revert ss Hss.
    induction (buckets (grouping_var self) (df_rows table)) as [|[k rs] bs IH];
      intros ss Hss; simpl in Hss.
    - inversion Hss; subst. simpl. lia.
    - inversion Hss as [|g data ? ss' Hdata Hrest]; subst. simpl in Hdata.
      specialize (IH ss' Hrest). apply Hstorm in Hdata. simpl in Hdata.
      simpl. rewrite length_app.
      assert (1 <= Z.to_nat (past_horizon self + future_horizon self))%nat by lia.
      lia. }
  split; [exact Hstorm|]. split.
  - intros table samples Ht Hgen. split; [by apply Hall|].
    etransitivity; [by apply Hall | apply keyed_rows_length].
  - intros a d table Hinit <- Ht.
    apply init_ok in Hinit as (Hgen & _).
    specialize (Hall table _ Ht Hgen).
    pose proof (keyed_rows_length (grouping_var (ds_self d)) (df_rows table)).
    unfold len, nrows. lia.
Qed.

End Access.

Lemma X4_witness :
  (exists s, generated_samples ex_dataset !! Z.to_nat 1 = Some s /\
             getitem_sample ex_dataset 1 = Ok s /\
             getitem_sample ex_dataset (1 - len ex_dataset) = Ok s) /\
  getitem_sample ex_dataset 2 = Raise IndexError.
Proof.
  split.
  - apply (proj1 (X4_getitem_bounds ex_dataset 1)). unfold len. simpl. lia.
  - apply (proj2 (X4_getitem_bounds ex_dataset 2)). left. unfold len. simpl. lia.
Defined.

Lemma X3_witness :
  (forall (storm_df : DataFrame) data,
     generate_storm_ts_samples ex_env ex_self storm_df = Ok data ->
     (length data
      <= length (df_rows storm_df) + 1
         - Z.to_nat (past_horizon ex_self + future_horizon ex_self))%nat) /\
  (forall (table : DataFrame) samples,
     hurdat_table ex_self = Some table ->
     generate_all_ts_samples ex_env ex_self = Ok samples ->
     (length samples
      <= length (keyed_rows (grouping_var ex_self) (df_rows table)))%nat /\
     (length samples <= length (df_rows table))%nat) /\
  (forall a d (table : DataFrame),
     init ex_env a = Ok d -> ds_self d = ex_self ->
     hurdat_table ex_self = Some table -> len d <= nrows table).
Proof.
  apply (X3_sample_count_bounds ex_env ex_self). simpl. lia.
Defined.

(* ===================================================================== *)
(** ** Further properties: a window is a run of rows of one storm *)
(* ===================================================================== *)

Section Contiguity.
Context `{B : Backend}.

Lemma group_rows_keyed (key : string) (table : DataFrame) groups k g :
  groupby key table = Ok groups -> (k, g) ∈ groups ->
  k <> CNaN /\ Forall (fun r => cell_at r key = k) (df_rows g).
Proof.
  intros Hg Hin. destruct (groupby_elem _ _ _ _ _ Hg Hin) as [_ Hb].
  destruct (buckets_grouped key (df_rows table)) as [_ Hrows _ _].
  destruct (Hrows _ _ Hb) as (Hk & _ & Heq). split; [exact Hk|].
  rewrite Heq. apply Forall_forall. by intros r [? _]%list_elem_of_filter.
Qed.

Lemma full_window_offset self (df : DataFrame) ws w :
  0 < past_horizon self + future_horizon self ->
  rolling (past_horizon self + future_horizon self) df = Ok ws ->
  w ∈ ws -> full_size self w = true ->
  exists j : nat,
    (j + Z.to_nat (past_horizon self + future_horizon self)
     <= length (df_rows df))%nat /\
    w = iloc_slice j (j + Z.to_nat (past_horizon self + future_horizon self)) df.
Proof.
  intros HW Hws Hw Hfull.
  assert (Hin : In w (List.filter (full_size self) ws))
    by (apply filter_In; split; [by apply list_elem_of_In | exact Hfull]).
  rewrite (full_windows self df ws HW Hws) in Hin.
  apply in_map_iff in Hin as (j & <- & Hj). apply in_seq in Hj.
  exists j. split; [lia | reflexivity].
Qed.

Lemma iloc_slice_rows_offset (j size : nat) (df : DataFrame) :
  df_rows (iloc_slice j (j + size) df) = take size (drop j (df_rows df)).
Proof. unfold iloc_slice; simpl. f_equal. lia. Qed.

Lemma built_window_nonempty env self w s :
  built_from env self w s -> 0 < past_horizon self + future_horizon self.
Proof.
  intros [Hfull (last_row & Hlast & _) _ _ _ _].
  apply iloc_last_nonempty in Hlast.
  assert (df_rows w <> []) as Hne.
  { intros Hnil. apply Hlast. unfold head; simpl. rewrite Hnil.
    destruct (0 <=? past_horizon self); apply take_nil. }
  unfold nrows in Hfull. destruct (df_rows w); [done|]. simpl in Hfull. lia.
Qed.

(** X6. The window behind every generated sample is a run of
    [past_horizon + future_horizon] consecutive rows of a single storm
    group: it is the slice of the group at some offset j with
    j + size <= n, all its rows carry the key of that group, and that key is
    not missing (rows without a grouping key reach no window). *)
Theorem X6_window_is_a_run_of_one_storm env self samples s :
  generate_all_ts_samples env self = Ok samples -> s ∈ samples ->
  exists table groups k g (j : nat) w,
    hurdat_table self = Some table /\
    groupby (grouping_var self) table = Ok groups /\ (k, g) ∈ groups /\
    window_sample env self w = Ok (Some s) /\
    (j + Z.to_nat (past_horizon self + future_horizon self)
     <= length (df_rows g))%nat /\
    df_columns w = df_columns table /\
    df_rows w = take (Z.to_nat (past_horizon self + future_horizon self))
                     (drop j (df_rows g)) /\
    length (df_rows w) = Z.to_nat (past_horizon self + future_horizon self) /\
    k <> CNaN /\
    Forall (fun r => cell_at r (grouping_var self) = k) (df_rows w).
Proof.
  intros Hall Hs.
  destruct (generated_sample_origin _ _ _ _ Hall Hs)
    as (table & groups & [k g] & ws & w & Ht & Hg & Hgin & Hws & Hw & Hsample).
  simpl in Hws.
  pose proof (window_sample_some _ _ _ _ Hsample) as Hbuilt.
  pose proof (built_window_nonempty _ _ _ _ Hbuilt) as HW.
  assert (Hfull : full_size self w = true)
    by (unfold full_size; apply Z.eqb_eq, Hbuilt).
  destruct (full_window_offset self g ws w HW Hws Hw Hfull) as (j & Hj & Hslice).
  destruct (group_rows_keyed _ _ _ _ _ Hg Hgin) as [Hk Hkeys].
  exists table, groups, k, g, j, w.
  split; [exact Ht|]. split; [exact Hg|]. split; [exact Hgin|].
  split; [exact Hsample|]. split; [exact Hj|].
  split.
  { apply (window_of_columns self); [exact Ht|].
    by exists table, groups, (k, g), ws. }
  assert (Hrows : df_rows w = take (Z.to_nat (past_horizon self + future_horizon self))
                                   (drop j (df_rows g)))
    by (rewrite Hslice; apply iloc_slice_rows_offset).
  split; [exact Hrows|]. split.
  { rewrite Hrows, length_take, length_drop. lia. }
  split; [exact Hk|].
  rewrite Hrows. by apply Forall_take, Forall_drop.
Qed.



End Contiguity.

Lemma X6_witness :
  exists table groups k g (j : nat) w,
    hurdat_table ex_self = Some table /\
    groupby (grouping_var ex_self) table = Ok groups /\ (k, g) ∈ groups /\
    window_sample ex_env ex_self w = Ok (Some ex_sample2) /\
    (j + Z.to_nat (past_horizon ex_self + future_horizon ex_self)
     <= length (df_rows g))%nat /\
    df_columns w = df_columns table /\
    df_rows w = take (Z.to_nat (past_horizon ex_self + future_horizon ex_self))
                     (drop j (df_rows g)) /\
    length (df_rows w) = Z.to_nat (past_horizon ex_self + future_horizon ex_self) /\
    k <> CNaN /\
    Forall (fun r => cell_at r (grouping_var ex_self) = k) (df_rows w).
Proof.
  apply (X6_window_is_a_run_of_one_storm ex_env ex_self [ex_sample; ex_sample2]).
  - vm_compute. reflexivity.
  - apply list_elem_of_further, list_elem_of_here.
Defined.


(* ===================================================================== *)
(** ** Further properties: dates and their strings *)
(* ===================================================================== *)

Section DateStrings.
Context `{B : Backend}.

(** X7. The lag of line 114 on a valid datetime.  On 0001-01-01 (ordinal 1)
    [dt - timedelta(days=1)] raises [OverflowError]; on every other date it
    returns a valid datetime whose ordinal is one less and whose time of
    day is unchanged. *)
Theorem X7_day_before_or_overflow (dt : datetime) :
  valid_datetime dt ->
  (dt_year dt = 1 /\ dt_month dt = 1 /\ dt_day dt = 1 ->
   sub_one_day dt = Raise OverflowError /\ toordinal dt = 1) /\
  (~ (dt_year dt = 1 /\ dt_month dt = 1 /\ dt_day dt = 1) ->
   exists lag,
     sub_one_day dt = Ok lag /\ valid_datetime lag /\
     toordinal lag = toordinal dt - 1 /\
     dt_hour lag = dt_hour dt /\ dt_minute lag = dt_minute dt /\
     dt_second lag = dt_second dt).
Proof.
  intros Hv. split.
  - intros (Hy & Hm & Hd). unfold sub_one_day, toordinal.
    rewrite Hy, Hm, Hd. by simpl.
  - intros Hnot.
    assert (Hok : is_ok (sub_one_day dt)).
    { destruct Hv as (Hy & Hm & Hd & Hh). unfold sub_one_day.
      destruct (dt_day dt - 1 =? 0) eqn:Ed.
      - apply Z.eqb_eq in Ed. destruct (0 <? dt_month dt - 1) eqn:Em.
        + replace ((1 <=? dt_year dt) && (dt_year dt <=? 9999)) with true
            by (symmetry; apply andb_true_iff; split; apply Z.leb_le; lia).
          eexists; reflexivity.
        + apply Z.ltb_ge in Em.
          replace ((1 <=? dt_year dt - 1) && (dt_year dt - 1 <=? 9999)) with true
            by (symmetry; apply andb_true_iff; split; apply Z.leb_le; lia).
          eexists; reflexivity.
      - replace ((1 <=? dt_year dt) && (dt_year dt <=? 9999)) with true
          by (symmetry; apply andb_true_iff; split; apply Z.leb_le; lia).
        eexists; reflexivity. }
    destruct Hok as [lag Hlag]. exists lag. split; [exact Hlag|].
    by apply sub_one_day_spec.
Qed.

Lemma string_app_inj (s1 s2 t1 t2 : string) :
  String.length s1 = String.length s2 -> s1 +:+ t1 = s2 +:+ t2 ->
  s1 = s2 /\ t1 = t2.
Proof.
  revert s2. induction s1 as [|c s1 IH]; intros [|c' s2]; simpl; try discriminate.
  - intros _ H. split; [reflexivity | exact H].
  - intros [= Hlen] H. injection H as -> Happ.
    destruct (IH s2 Hlen Happ) as [-> ->]. done.
Qed.

Lemma digit_inj (z1 z2 : Z) : digit z1 = digit z2 -> z1 mod 10 = z2 mod 10.
Proof.
  unfold digit. intros H.
  assert (Hb1 : 0 <= z1 mod 10 < 10) by (apply Z.mod_pos_bound; lia).
  assert (Hb2 : 0 <= z2 mod 10 < 10) by (apply Z.mod_pos_bound; lia).
  apply (f_equal nat_of_ascii) in H.
  rewrite !nat_ascii_embedding in H by lia. lia.
Qed.

Lemma zdigits_inj (w : nat) (z1 z2 : Z) :
  0 <= z1 < 10 ^ Z.of_nat w -> 0 <= z2 < 10 ^ Z.of_nat w ->
  zdigits w z1 = zdigits w z2 -> z1 = z2.
Proof.
  revert z1 z2. induction w as [|w IH]; intros z1 z2 H1 H2; simpl.
  - simpl in H1, H2. lia.
  - rewrite Nat2Z.inj_succ, Z.pow_succ_r in H1, H2 by lia.
    intros H. apply string_app_inj in H as [Hhi Hlo];
      [|by rewrite !zdigits_length].
    injection Hlo as Hlo. apply digit_inj in Hlo.
    apply IH in Hhi; [|split; [apply Z.div_pos; lia | apply Z.div_lt_upper_bound; lia]..].
    rewrite (Z.div_mod z1 10), (Z.div_mod z2 10) by lia. congruence.
Qed.

Lemma days_in_month_le (y m : Z) : days_in_month y m <= 31.
Proof.
  unfold days_in_month. destruct (_ && _); [lia|].
  destruct (Z.to_nat m) as [|[|[|[|[|[|[|[|[|[|[|[|[|n]]]]]]]]]]]]]; simpl; try lia.
  destruct n; simpl; lia.
Qed.

(** X8. The date strings are faithful: two valid datetimes with the same
    "%Y-%m-%d" string fall on the same calendar day, so two different days
    never share a raster lookup key; and two valid datetimes with the same
    "%Y-%m-%d %H:%M:%S" string also share the hour. *)
Theorem X8_date_strings_are_injective (dt1 dt2 : datetime) :
  valid_datetime dt1 -> valid_datetime dt2 ->
  (strftime_date dt1 = strftime_date dt2 ->
   dt_year dt1 = dt_year dt2 /\ dt_month dt1 = dt_month dt2 /\
   dt_day dt1 = dt_day dt2) /\
  (strftime_full dt1 = strftime_full dt2 ->
   dt_year dt1 = dt_year dt2 /\ dt_month dt1 = dt_month dt2 /\
   dt_day dt1 = dt_day dt2 /\ dt_hour dt1 = dt_hour dt2).
Proof.
  intros (Hy1 & Hm1 & Hd1 & Hh1) (Hy2 & Hm2 & Hd2 & Hh2).
  pose proof (days_in_month_le (dt_year dt1) (dt_month dt1)) as Hdim1.
  pose proof (days_in_month_le (dt_year dt2) (dt_month dt2)) as Hdim2.
  assert (Hdate : strftime_date dt1 = strftime_date dt2 ->
            dt_year dt1 = dt_year dt2 /\ dt_month dt1 = dt_month dt2 /\
            dt_day dt1 = dt_day dt2).
  { unfold strftime_date. intros H.
    apply string_app_inj in H as [Hy H]; [|by rewrite !zdigits_length].
    apply (string_app_inj "-" "-") in H as [_ H]; [|reflexivity].
    apply string_app_inj in H as [Hm H]; [|by rewrite !zdigits_length].
    apply (string_app_inj "-" "-") in H as [_ Hd]; [|reflexivity].
    apply zdigits_inj in Hy; [|simpl; lia..].
    apply zdigits_inj in Hm; [|simpl; lia..].
    apply zdigits_inj in Hd; [|simpl; lia..].
    done. }
  split; [exact Hdate|].
  unfold strftime_full. intros H.
  apply string_app_inj in H as [Hd H]; [|by rewrite !strftime_date_length].
  apply (string_app_inj " " " ") in H as [_ H]; [|reflexivity].
  apply string_app_inj in H as [Hh _]; [|by rewrite !zdigits_length].
  apply zdigits_inj in Hh; [|simpl; lia..].
  destruct (Hdate Hd) as (? & ? & ?). done.
Qed.

End DateStrings.

Lemma X7_witness :
  (sub_one_day ex_dt_first = Raise OverflowError /\ toordinal ex_dt_first = 1) /\
  exists lag,
    sub_one_day ex_dt_march = Ok lag /\ valid_datetime lag /\
    toordinal lag = toordinal ex_dt_march - 1 /\
    dt_hour lag = dt_hour ex_dt_march /\ dt_minute lag = dt_minute ex_dt_march /\
    dt_second lag = dt_second ex_dt_march.
Proof.
  assert (H1 : valid_datetime ex_dt_first)
    by (unfold valid_datetime; simpl; change (days_in_month 1 1) with 31; lia).
  assert (H2 : valid_datetime ex_dt_march)
    by (unfold valid_datetime; simpl; change (days_in_month 2020 3) with 31; lia).
  split.
  - apply (proj1 (X7_day_before_or_overflow ex_dt_first H1)). by simpl.
  - apply (proj2 (X7_day_before_or_overflow ex_dt_march H2)). simpl. lia.
Defined.

Lemma X8_witness :
  valid_datetime ex_dt /\
  (dt_year ex_dt = dt_year ex_dt /\ dt_month ex_dt = dt_month ex_dt /\
   dt_day ex_dt = dt_day ex_dt) /\
  (dt_year ex_dt = dt_year ex_dt /\ dt_month ex_dt = dt_month ex_dt /\
   dt_day ex_dt = dt_day ex_dt /\ dt_hour ex_dt = dt_hour ex_dt).
Proof.
  assert (H1 : valid_datetime ex_dt)
    by (unfold valid_datetime; simpl; change (days_in_month 2020 9) with 30; lia).
  split; [exact H1|]. split.
  - exact (proj1 (X8_date_strings_are_injective ex_dt ex_dt H1 H1) eq_refl).
  - exact (proj2 (X8_date_strings_are_injective ex_dt ex_dt H1 H1) eq_refl).
Defined.

(* ===================================================================== *)
(** ** Further properties: when the loop body yields, skips or raises *)
(* ===================================================================== *)

Section Outcome.
Context `{B : Backend}.

Lemma selection_numeric (slice : DataFrame) vars sel t :
  getitem_list slice vars = Ok sel -> tensor_of_values sel = Ok t ->
  Forall (numeric_column slice) vars.
Proof.
  unfold getitem_list, tensor_of_values. intros Hsel Ht.
  apply bind_ok in Hsel as (ds & Hds & [= <-]). simpl in Ht.
  destruct (existsb _ _) eqn:Hex; [discriminate|]. clear Ht.
  apply traverse_ok in Hds. induction Hds as [|v d vars ds Hv _ IH]; [constructor|].
  simpl in Hex. apply orb_false_iff in Hex as [Hd Hex].
  apply bool_decide_eq_false in Hd. simpl in Hd.
  constructor; [|by apply IH].
  unfold numeric_column. rewrite Hv. destruct d; [by left | by right | done].
Qed.

Lemma slice_datetimes_ready (slice : DataFrame) dts :
  slice_datetimes slice = Ok dts ->
  has_column "year" slice = true /\ has_column "month" slice = true /\
  has_column "day" slice = true /\ has_column "hour" slice = true /\
  Forall valid_timestamp (df_rows slice).
Proof.
  intros H. pose proof (slice_datetimes_ok _ _ H) as Hrows.
  unfold slice_datetimes, getitem in H.
  destruct (has_column "year" slice); [|discriminate].
  destruct (has_column "month" slice); [|discriminate].
  destruct (has_column "day" slice); [|discriminate].
  destruct (has_column "hour" slice); [|discriminate].
  repeat (split; [reflexivity|]). clear H.
  induction Hrows as [|r dt rows dts Hdt _ IH]; constructor; [|exact IH].
  destruct (datetime_new_fields _ _ Hdt) as ([= Hy Hm Hd Hh] & _).
  destruct (datetime_new_valid _ _ Hdt) as (? & ? & ? & ?).
  by exists (dt_year dt), (dt_month dt), (dt_day dt), (dt_hour dt).
Qed.

(** X10. The outcome of the loop body on one window, for a dataset without
    raster index.  (1) It yields a sample exactly when the window passes
    the size and status gates and everything it then reads is there: the
    columns "system_status", "atcf_code", "year", "month", "day" and "hour",
    every input and target variable as a numeric column, and a valid
    timestamp on each leading row.  (2) It skips the window exactly when
    the window is not full-size, or is full-size with a readable status
    that is neither "TS" nor "HU".  In every other case it raises. *)
Theorem X10_outcome_of_a_window env self (w : DataFrame) :
  oisst_table self = None ->
  ((exists s, window_sample env self w = Ok (Some s)) <->
   retained self w = true /\ has_column "system_status" w = true /\
   sample_ready self w) /\
  (window_sample env self w = Ok None <->
   full_size self w = false \/
   (retained self w = false /\
    is_ok (iloc_last (head (past_horizon self) w)) /\
    has_column "system_status" w = true)) /\
  (fails (window_sample env self w) <->
   full_size self w = true /\
   ~ (is_ok (iloc_last (head (past_horizon self) w)) /\
      has_column "system_status" w = true /\
      (retained self w = true -> sample_ready self w))).
Proof.
  intros Hnone.
  assert (Hsome : (exists s, window_sample env self w = Ok (Some s)) <->
     retained self w = true /\ has_column "system_status" w = true /\
     sample_ready self w).
  { split.
    - intros [s Hs]. split; [by eapply window_sample_retained|].
      pose proof (window_sample_some _ _ _ _ Hs)
        as [_ (last_row & _ & Hst & _) (isel & Hisel & Hit) (osel & Hosel & Hot)
              (dts & Hdts & _) (codes & Hc & _)].
      split; [exact Hst|].
      destruct (slice_datetimes_ready _ _ Hdts) as (Hy & Hm & Hd & Hh & Hrows).
      constructor; try assumption.
      + unfold getitem in Hc. by destruct (has_column "atcf_code" w).
      + exact (selection_numeric _ _ _ _ Hisel Hit).
      + exact (selection_numeric _ _ _ _ Hosel Hot).
    - intros (Hret & Hst & [Hcode Hy Hm Hd Hh Hin Hout Hdates]).
      unfold retained in Hret. apply andb_true_iff in Hret as [Hfull Hperm].
      destruct (iloc_last (head (past_horizon self) w)) as [last_row|e] eqn:Hlast;
        [|discriminate].
      unfold window_sample. unfold full_size in Hfull. rewrite Hfull, Hlast. simpl.
      unfold row_getitem. rewrite Hst. simpl. rewrite Hperm. simpl.
      destruct (numeric_tensor (head (past_horizon self) w) _ Hin)
        as (isel & it & -> & Hit).
      simpl. rewrite Hit. simpl.
      rewrite slice_datetimes_rows by assumption.
      destruct (traverse_total
                  (fun r => datetime_new (cell_at r "year", cell_at r "month",
                                          cell_at r "day", cell_at r "hour"))
                  (df_rows (head (past_horizon self) w))) as [dts ->].
      { eapply Forall_impl; [exact Hdates|]. intros r. apply valid_timestamp_datetime. }
      simpl.
      destruct (numeric_tensor (head (past_horizon self) w) _ Hout)
        as (osel & ot & -> & Hot).
      simpl. rewrite Hot. simpl.
      unfold getitem. rewrite Hcode. simpl.
      assert (df_rows w <> []) as Hne.
      { intros Hnil. apply iloc_last_nonempty in Hlast. apply Hlast.
        unfold head; simpl. rewrite Hnil.
        destruct (0 <=? past_horizon self); apply take_nil. }
      destruct (df_rows w) as [|r0 rows]; [done|]. simpl.
      unfold attach_oisst. rewrite Hnone. simpl. eauto. }
  assert (Hskip : window_sample env self w = Ok None <->
     full_size self w = false \/
     (retained self w = false /\
      is_ok (iloc_last (head (past_horizon self) w)) /\
      has_column "system_status" w = true)).
  { split.
    - intros H. pose proof (window_sample_none _ _ _ H) as Hret.
      destruct (full_size self w) eqn:Hfull; [right | by left].
      split; [exact Hret|].
      unfold window_sample in H. unfold full_size in Hfull. rewrite Hfull in H.
      simpl in H. apply bind_ok in H as (last_row & Hlast & H).
      apply bind_ok in H as (status & Hst & _).
      split; [by exists last_row|].
      unfold row_getitem in Hst. by destruct (has_column "system_status" w).
    - intros [Hshort|(Hret & [last_row Hlast] & Hst)];
        [by apply window_sample_short|].
      destruct (full_size self w) eqn:Hfull; [|by apply window_sample_short].
      unfold retained in Hret. rewrite Hfull, Hlast in Hret. simpl in Hret.
      unfold window_sample. unfold full_size in Hfull. rewrite Hfull, Hlast. simpl.
      unfold row_getitem. rewrite Hst. simpl. by rewrite Hret. }
  split; [exact Hsome|]. split; [exact Hskip|].
  rewrite fails_not_ok. split.
  - intros Hnot.
    destruct (full_size self w) eqn:Hfull;
      [|exfalso; apply Hnot; exists None; apply Hskip; by left].
    split; [reflexivity|]. intros (Hlast & Hst & Hready). apply Hnot.
    destruct (retained self w) eqn:Hret.
    + destruct (proj2 Hsome) as [s Hs]; [by auto|]. by exists (Some s).
    + exists None. apply Hskip. right. by auto.
  - intros [Hfull Hnot] [o Ho]. apply Hnot. destruct o as [s|].
    + destruct (proj1 Hsome) as (Hret & Hst & Hready); [by exists s|].
      pose proof (window_sample_some _ _ _ _ Ho) as [_ (last_row & Hlast & _) _ _ _ _].
      split; [by exists last_row|]. by split.
    + apply Hskip in Ho as [Hshort|(Hret & Hlast & Hst)]; [congruence|].
      split; [exact Hlast|]. split; [exact Hst|]. congruence.
Qed.

End Outcome.

Lemma X10_witness :
  ((exists s, window_sample ex_env ex_self_plain ex_window = Ok (Some s)) <->
   retained ex_self_plain ex_window = true /\
   has_column "system_status" ex_window = true /\
   sample_ready ex_self_plain ex_window) /\
  (window_sample ex_env ex_self_plain ex_window = Ok None <->
   full_size ex_self_plain ex_window = false \/
   (retained ex_self_plain ex_window = false /\
    is_ok (iloc_last (head (past_horizon ex_self_plain) ex_window)) /\
    has_column "system_status" ex_window = true)) /\
  (fails (window_sample ex_env ex_self_plain ex_window) <->
   full_size ex_self_plain ex_window = true /\
   ~ (is_ok (iloc_last (head (past_horizon ex_self_plain) ex_window)) /\
      has_column "system_status" ex_window = true /\
      (retained ex_self_plain ex_window = true ->
       sample_ready ex_self_plain ex_window))).
Proof.
  exact (X10_outcome_of_a_window ex_env ex_self_plain ex_window eq_refl).
Defined.
